(** * gitlab-job-helper: the client facade and its presentation mapping

    A shallow embedding of [gitlab_client.py] (class [GitLabClient]) and of
    the [jobs logs] command of [gitlab_helper.py].

    - A Python [str] is a sequence of Unicode code points ([pystr]).
    - [bytes] is a [list byte].
    - The remote service (python-gitlab's project handle) is a record of
      functions, one per call the facade makes; each either returns a value
      or raises.
    - Effects are kept in a trace: what the rich console printed, what
      [print] wrote, and which remote calls were issued, in program order.
    - Exceptions are the instances of [Exception] the facade can meet; the
      handlers only distinguish [ValueError] (and its subclasses) from the
      rest. [KeyboardInterrupt] and [SystemExit] are not [Exception]s and
      are not part of the model.
    - [print] is an output effect that succeeds. [console.print] reads its
      argument as rich markup: where the text of the caller is pasted into
      the message (the id of [get_job] and [get_job_logs]) rich may refuse
      it with [MarkupError]; what rich makes of a message is a parameter,
      [markup_error]. Messages made of fixed text, integers and the text
      of an exception of the service are taken to render.
    - The client is taken as connected: building it ([get_client], the
      configuration file, the project lookup) ends the process on failure
      and happens before any operation below. The start-up itself is
      embedded apart, in [Startup]; the tables and the other batch
      commands in [Display] and [Cli], the debug script in [DebugScript].
      The interactive mode is left out: it rests on the prompts of
      prompt_toolkit and rich. *)

From Stdlib Require Import ZArith NArith Ascii String List Sorted.
From Stdlib Require Import Strings.Byte.
From stdpp Require Import base option list gmap strings pretty.

Local Open Scope Z_scope.

(** ** Python values *)

(** A Python string: the sequence of its code points. *)
Definition pystr : Type := list N.

(** A string literal of the source, code point by code point (the literals
    of the source are ASCII). *)
Definition lit (s : string) : pystr :=
  (fun a => N_of_ascii a) <$> list_ascii_of_string s.

(** [str(n)] for an [int]: the decimal numeral, with a leading [-]. *)
Definition str_of_int (n : Z) : pystr := lit (pretty n).

(** The code point of ["\n"]. *)
Definition newline : N := 10%N.

(** Truthiness of a [str]: non-empty. *)
Definition str_truthy (s : pystr) : bool :=
  match s with [] => false | _ => true end.

(** Truthiness of a [list]: non-empty. *)
Definition list_truthy {A} (l : list A) : bool :=
  match l with [] => false | _ => true end.

(** ** Presentation adapter: [_get_status_style] *)

Module Presentation.

(** The dict literal [status_styles]. *)
Definition status_styles : gmap pystr pystr :=
  <[lit "manual" := lit "magenta"]>
  (<[lit "created" := lit "cyan"]>
  (<[lit "skipped" := lit "grey"]>
  (<[lit "canceled" := lit "red"]>
  (<[lit "pending" := lit "yellow"]>
  (<[lit "running" := lit "blue"]>
  (<[lit "failed" := lit "red"]>
  (<[lit "success" := lit "green"]> ∅))))))).

(** [status_styles.get(status, 'white')]. *)
Definition _get_status_style (status : pystr) : pystr :=
  default (lit "white") (status_styles !! status).

End Presentation.

(** ** Exceptions, outcomes and the effect trace *)

(** The exception classes the facade can meet. [UnicodeDecodeError] is a
    subclass of [ValueError]; all of them are subclasses of [Exception]. *)
Inductive exn_class : Type :=
| ValueError
| UnicodeDecodeError
| IndexError
| GitlabError        (* GitlabGetError, GitlabListError, GitlabCreateError *)
| OtherError.        (* any other subclass of Exception *)

Record exn : Type := Exn { exn_cls : exn_class; exn_str : pystr }.

(** [isinstance(e, ValueError)]: what [except ValueError] catches. *)
Definition is_ValueError (e : exn) : bool :=
  match exn_cls e with
  | ValueError | UnicodeDecodeError => true
  | _ => false
  end.

(** [rich.errors.MarkupError]: a subclass of [Exception], not of
    [ValueError]. *)
Definition MarkupError (reason : pystr) : exn := Exn OtherError reason.

Inductive outcome (A : Type) : Type :=
| Return (a : A)
| Raise (e : exn).
Arguments Return {A} a.
Arguments Raise {A} e.

(** ** Entities of the remote service *)

Record Pipeline : Type := {
  pl_id : Z;
  pl_status : pystr;
  pl_ref : pystr;
  pl_sha : pystr;
  pl_created_at : pystr }.

Record Job : Type := {
  jb_id : Z;
  jb_stage : pystr;
  jb_name : pystr;
  jb_status : pystr }.

(** One [{'key': k, 'value': v}] record of a create request. *)
Record variable_record : Type := { key : pystr; value : pystr }.

(** The dict [{'ref': ref, 'variables': variables_list}] given to
    [pipelines.create]; [variables] is [None] or a list of records. *)
Record create_data : Type := {
  ref : pystr;
  variables : option (list variable_record) }.

(** What [job.trace()] hands back: [bytes], or already a [str]. *)
Inductive trace_value : Type :=
| TraceBytes (bs : list byte)
| TraceStr (s : pystr).

Inductive request : Type :=
| PipelinesList (per_page : Z)          (* project.pipelines.list(per_page=..) *)
| PipelinesGet (pipeline_id : Z)        (* project.pipelines.get(..) *)
| PipelinesCreate (data : create_data)  (* project.pipelines.create(..) *)
| PipelineJobsList (pipeline : Pipeline)(* pipeline.jobs.list(all=True) *)
| JobsGet (job_id : Z)                  (* project.jobs.get(..) *)
| JobTrace (job : Job).                 (* job.trace() *)

(** The remote service behind the project handle: the answer to each call. *)
Record Remote : Type := {
  pipelines_list : Z → outcome (list Pipeline);
  pipelines_get : Z → outcome Pipeline;
  pipelines_create : create_data → outcome Pipeline;
  pipeline_jobs_list : Pipeline → outcome (list Job);
  jobs_get : Z → outcome Job;
  job_trace : Job → outcome trace_value }.

Inductive event : Type :=
| ConsolePrint (markup : pystr)        (* console.print(markup) *)
| ConsolePanel (title code : pystr)    (* console.print(Panel(Syntax(code, "bash", ..), title=..)) *)
| Print (text : pystr)                 (* print(text) *)
| RemoteCall (r : request).

(** A computation: its outcome and the events it emitted, in order. *)
Definition M (A : Type) : Type := outcome A * list event.

Definition ret {A} (a : A) : M A := (Return a, []).

Definition bind {A B} (m : M A) (k : A → M B) : M B :=
  match m with
  | (Return a, t) => let '(r, t') := k a in (r, t ++ t')
  | (Raise e, t) => (Raise e, t)
  end.

Notation "x <- m ;; k" := (bind m (fun x => k))
  (at level 100, m at next level, right associativity).
Notation "m ;;; k" := (bind m (fun _ => k))
  (at level 100, right associativity).

(** [try: body  except Exception as e: handler(e)]. *)
Definition try_except {A} (body : M A) (handler : exn → M A) : M A :=
  match body with
  | (Raise e, t) => let '(r, t') := handler e in (r, t ++ t')
  | (Return a, t) => (Return a, t)
  end.

Definition lift {A} (o : outcome A) : M A := (o, []).
Definition console_print (markup : pystr) : M unit := (Return tt, [ConsolePrint markup]).
Definition console_panel (title code : pystr) : M unit := (Return tt, [ConsolePanel title code]).
Definition print (text : pystr) : M unit := (Return tt, [Print text]).
Definition call {A} (r : request) (answer : outcome A) : M A := (answer, [RemoteCall r]).

Definition result_of {A} (m : M A) : outcome A := fst m.
Definition trace_of {A} (m : M A) : list event := snd m.

(** What the rich console showed, what [print] wrote, which calls went out. *)
Definition console_of (t : list event) : list pystr :=
  omap (fun ev => match ev with ConsolePrint s => Some s | _ => None end) t.
Definition printed_of (t : list event) : list pystr :=
  omap (fun ev => match ev with Print s => Some s | _ => None end) t.
Definition requests_of (t : list event) : list request :=
  omap (fun ev => match ev with RemoteCall r => Some r | _ => None end) t.

(** ** [bytes.decode('utf-8', errors=...)] *)

Module Utf8.

Inductive utf8_error : Type := InvalidStart | InvalidContinuation | UnexpectedEnd.

(** One step of the decoder: a code point, or a malformed region. *)
Inductive utf8_item : Type :=
| Char (c : N)
| Malformed (why : utf8_error).

Definition is_continuation (ch : N) : bool := (0x80 <=? ch)%N && (ch <? 0xC0)%N.

(** The scanner of CPython's UTF-8 codec. A malformed region is the
    longest prefix of a sequence that could still have been completed,
    or a single byte; scanning resumes right after it. *)
Fixpoint utf8_scan (s : list byte) : list utf8_item :=
  match s with
  | [] => []
  | b1 :: s1 =>
    let ch := Byte.to_N b1 in
    if (ch <? 0x80)%N then Char ch :: utf8_scan s1
    else if (ch <? 0xE0)%N then
      if (ch <? 0xC2)%N then Malformed InvalidStart :: utf8_scan s1
      else
        match s1 with
        | [] => [Malformed UnexpectedEnd]
        | b2 :: s2 =>
          let ch2 := Byte.to_N b2 in
          if negb (is_continuation ch2)
          then Malformed InvalidContinuation :: utf8_scan s1
          else Char (N.shiftl ch 6 + ch2 - (N.shiftl 0xC0 6 + 0x80))%N
                 :: utf8_scan s2
        end
    else if (ch <? 0xF0)%N then
      match s1 with
      | [] => [Malformed UnexpectedEnd]
      | b2 :: s2 =>
        let ch2 := Byte.to_N b2 in
        if negb (is_continuation ch2)
           || (if (ch2 <? 0xA0)%N then (ch =? 0xE0)%N else (ch =? 0xED)%N)
        then Malformed InvalidContinuation :: utf8_scan s1
        else
          match s2 with
          | [] => [Malformed UnexpectedEnd]
          | b3 :: s3 =>
            let ch3 := Byte.to_N b3 in
            if negb (is_continuation ch3)
            then Malformed InvalidContinuation :: utf8_scan s2
            else Char (N.shiftl ch 12 + N.shiftl ch2 6 + ch3
                       - (N.shiftl 0xE0 12 + N.shiftl 0x80 6 + 0x80))%N
                   :: utf8_scan s3
          end
      end
    else if (ch <? 0xF5)%N then
      match s1 with
      | [] => [Malformed UnexpectedEnd]
      | b2 :: s2 =>
        let ch2 := Byte.to_N b2 in
        if negb (is_continuation ch2)
           || (if (ch2 <? 0x90)%N then (ch =? 0xF0)%N else (ch =? 0xF4)%N)
        then Malformed InvalidContinuation :: utf8_scan s1
        else
          match s2 with
          | [] => [Malformed UnexpectedEnd]
          | b3 :: s3 =>
            let ch3 := Byte.to_N b3 in
            if negb (is_continuation ch3)
            then Malformed InvalidContinuation :: utf8_scan s2
            else
              match s3 with
              | [] => [Malformed UnexpectedEnd]
              | b4 :: s4 =>
                let ch4 := Byte.to_N b4 in
                if negb (is_continuation ch4)
                then Malformed InvalidContinuation :: utf8_scan s3
                else Char (N.shiftl ch 18 + N.shiftl ch2 12 + N.shiftl ch3 6 + ch4
                           - (N.shiftl 0xF0 18 + N.shiftl 0x80 12
                              + N.shiftl 0x80 6 + 0x80))%N
                       :: utf8_scan s4
              end
          end
      end
    else Malformed InvalidStart :: utf8_scan s1
  end.

(** The [errors] argument of [decode]. *)
Inductive error_policy : Type := Strict | Replace | Ignore.

(** U+FFFD REPLACEMENT CHARACTER. *)
Definition replacement_character : N := 0xFFFD%N.

Definition reason (why : utf8_error) : pystr :=
  match why with
  | InvalidStart => lit "invalid start byte"
  | InvalidContinuation => lit "invalid continuation byte"
  | UnexpectedEnd => lit "unexpected end of data"
  end.

(** The error handler applied to each malformed region: [strict] raises
    [UnicodeDecodeError], [replace] writes U+FFFD, [ignore] writes nothing. *)
Fixpoint apply_policy (errors : error_policy) (items : list utf8_item)
  : outcome pystr :=
  match items with
  | [] => Return []
  | Char c :: rest =>
    match apply_policy errors rest with
    | Return s => Return (c :: s)
    | Raise e => Raise e
    end
  | Malformed why :: rest =>
    match errors with
    | Strict => Raise (Exn UnicodeDecodeError (reason why))
    | Replace =>
      match apply_policy errors rest with
      | Return s => Return (replacement_character :: s)
      | Raise e => Raise e
      end
    | Ignore => apply_policy errors rest
    end
  end.

Definition decode (errors : error_policy) (bs : list byte) : outcome pystr :=
  apply_policy errors (utf8_scan bs).

End Utf8.

(** ** Python dicts of strings, in insertion order *)

(** A [Dict[str, str]]: its items in insertion order. A dict holds each key
    once ([dict_wf]). *)
Definition dict : Type := list (pystr * pystr).

Definition dict_keys (d : dict) : list pystr := fst <$> d.
Definition dict_wf (d : dict) : Prop := NoDup (dict_keys d).

(** [d[k] = v]: overwrite in place, or append a new item. *)
Fixpoint dict_set (d : dict) (k v : pystr) : dict :=
  match d with
  | [] => [(k, v)]
  | (k', v') :: rest =>
    if decide (k' = k) then (k, v) :: rest else (k', v') :: dict_set rest k v
  end.

(** Truthiness of a dict: non-empty. *)
Definition dict_truthy (d : dict) : bool :=
  match d with [] => false | _ => true end.

(** ** The id argument of [get_job] and [get_job_logs] *)

(** The annotation says [int]; callers also pass the text typed by the
    user (the debug script passes [sys.argv[1]]). *)
Inductive pyid : Type :=
| IdInt (n : Z)
| IdStr (s : pystr).

(** [f"{job_id}"]. *)
Definition format_id (job_id : pyid) : pystr :=
  match job_id with
  | IdInt n => str_of_int n
  | IdStr s => s
  end.

(** ** The API facade: class [GitLabClient] *)

Module GitLabClient.
Section Client.

(** The builtin [int] on a [str]: the integer it denotes, or nothing when
    the text is not an integer literal (then [int] raises [ValueError]). *)
Variable int_of_str : pystr → option Z.

(** What rich's markup parser makes of a message: nothing to object, or
    the reason of the [MarkupError] it raises (a closing tag that matches
    no open tag). *)
Variable markup_error : pystr → option pystr.

(** [self.project]. *)
Variable remote : Remote.

(** [int(job_id)]. *)
Definition py_int (job_id : pyid) : outcome Z :=
  match job_id with
  | IdInt n => Return n
  | IdStr s =>
    match int_of_str s with
    | Some n => Return n
    | None => Raise (Exn ValueError (lit "invalid literal for int() with base 10"))
    end
  end.

Definition get_pipelines (limit : Z) : M (list Pipeline) :=
  try_except
    (l <- call (PipelinesList limit) (pipelines_list remote limit) ;;
     ret l)
    (fun e =>
       console_print (lit "[bold red]Failed to get pipelines: " ++ exn_str e
                      ++ lit "[/bold red]") ;;;
       ret []).

Definition get_pipeline (pipeline_id : Z) : M (option Pipeline) :=
  try_except
    (p <- call (PipelinesGet pipeline_id) (pipelines_get remote pipeline_id) ;;
     ret (Some p))
    (fun e =>
       console_print (lit "[bold red]Failed to get pipeline "
                      ++ str_of_int pipeline_id ++ lit ": " ++ exn_str e
                      ++ lit "[/bold red]") ;;;
       ret None).

(** [pipelines[0]]: the first element, [IndexError] on an empty list. *)
Definition first_item {A} (l : list A) : M A :=
  match l with
  | x :: _ => ret x
  | [] => lift (Raise (Exn IndexError (lit "list index out of range")))
  end.

Definition get_latest_pipeline : M (option Pipeline) :=
  pipelines <- get_pipelines 1 ;;
  if list_truthy pipelines
  then (p <- first_item pipelines ;; ret (Some p))
  else ret None.

(** [[{'key': k, 'value': v} for k, v in variables.items()]]. *)
Definition variables_list_of (variables : dict) : list variable_record :=
  (fun kv => {| key := kv.1; value := kv.2 |}) <$> variables.

Definition create_pipeline (ref : pystr) (variables : option dict)
  : M (option Pipeline) :=
  try_except
    (let variables_list :=
       match variables with
       | Some d => if dict_truthy d then Some (variables_list_of d) else None
       | None => None
       end in
     pipeline <- call (PipelinesCreate {| ref := ref; variables := variables_list |})
                      (pipelines_create remote
                         {| ref := ref; variables := variables_list |}) ;;
     ret (Some pipeline))
    (fun e =>
       console_print (lit "[bold red]Failed to create pipeline: " ++ exn_str e
                      ++ lit "[/bold red]") ;;;
       ret None).

Definition get_jobs (pipeline_id : Z) : M (list Job) :=
  try_except
    (pipeline <- get_pipeline pipeline_id ;;
     match pipeline with
     | Some pipeline =>
       l <- call (PipelineJobsList pipeline) (pipeline_jobs_list remote pipeline) ;;
       ret l
     | None => ret []
     end)
    (fun e =>
       console_print (lit "[bold red]Failed to get jobs for pipeline "
                      ++ str_of_int pipeline_id ++ lit ": " ++ exn_str e
                      ++ lit "[/bold red]") ;;;
       ret []).

(** [try: job_id = int(job_id); body  except ...: handler]: the handlers
    format whatever [job_id] is bound to when the exception arrives, the
    argument if [int] raised and the integer afterwards. *)
Definition try_with_int {A} (job_id : pyid) (body : Z → M A)
  (handler : pyid → exn → M A) : M A :=
  match py_int job_id with
  | Raise e => handler job_id e
  | Return n => try_except (body n) (handler (IdInt n))
  end.

Definition invalid_job_id_message (job_id : pyid) : pystr :=
  lit "[bold red]Invalid job ID: " ++ format_id job_id
  ++ lit ". Job ID must be an integer.[/bold red]".

Definition failed_job_message (job_id : pyid) (e : exn) : pystr :=
  lit "[bold red]Failed to get job " ++ format_id job_id ++ lit ": "
  ++ exn_str e ++ lit "[/bold red]".

Definition failed_logs_message (job_id : pyid) (e : exn) : pystr :=
  lit "[bold red]Failed to get logs for job " ++ format_id job_id ++ lit ": "
  ++ exn_str e ++ lit "[/bold red]".

(** [console.print] of a message into which [job_id] was pasted. The
    numeral of an integer holds no tag. The text of the caller is read as
    markup with the rest of the message: when rich refuses the message it
    raises [MarkupError] and nothing is printed. *)
Definition console_print_pasting (job_id : pyid) (markup : pystr) : M unit :=
  match job_id with
  | IdInt _ => console_print markup
  | IdStr _ =>
    match markup_error markup with
    | None => console_print markup
    | Some reason => lift (Raise (MarkupError reason))
    end
  end.

Definition get_job (job_id : pyid) : M (option Job) :=
  try_with_int job_id
    (fun n =>
       job <- call (JobsGet n) (jobs_get remote n) ;;
       ret (Some job))
    (fun job_id e =>
       if is_ValueError e
       then console_print_pasting job_id (invalid_job_id_message job_id) ;;;
            ret None
       else console_print_pasting job_id (failed_job_message job_id e) ;;;
            ret None).

Definition get_job_logs (job_id : pyid) : M pystr :=
  try_with_int job_id
    (fun n =>
       job <- get_job (IdInt n) ;;
       match job with
       | Some job =>
         logs_bytes <- call (JobTrace job) (job_trace remote job) ;;
         match logs_bytes with
         | TraceBytes bs => lift (Utf8.decode Utf8.Replace bs)
         | TraceStr s => ret s
         end
       | None => ret []
       end)
    (fun job_id e =>
       if is_ValueError e
       then console_print_pasting job_id (invalid_job_id_message job_id) ;;;
            ret []
       else console_print_pasting job_id (failed_logs_message job_id e) ;;;
            ret []).

End Client.
End GitLabClient.

(** ** The [jobs logs] command of [gitlab_helper.py] *)

Module Helper.
Section Commands.

Variable int_of_str : pystr → option Z.
Variable markup_error : pystr → option pystr.

(** The client [get_client] returned, connected to its project. *)
Variable remote : Remote.

Definition logs_header (job_id : Z) : pystr :=
  newline :: lit "--- Logs for Job #" ++ str_of_int job_id ++ lit " ---".

Definition logs_footer : pystr := lit "-----------------------------".

Definition no_logs_message (job_id : Z) : pystr :=
  lit "[bold red]No logs found for job " ++ str_of_int job_id
  ++ lit "[/bold red]".

(** The command [jobs logs JOB_ID [--raw/--no-raw]]; typer has already
    parsed [job_id] as an [int]. *)
Definition get_job_logs (job_id : Z) (raw : bool) : M unit :=
  try_except
    (logs <- GitLabClient.get_job_logs int_of_str markup_error remote
               (IdInt job_id) ;;
     if str_truthy logs then
       if raw then
         print (logs_header job_id) ;;;
         print logs ;;;
         print logs_footer
       else
         console_panel (lit "Logs for Job #" ++ str_of_int job_id) logs
     else
       console_print (no_logs_message job_id))
    (fun e =>
       if is_ValueError e
       then console_print (lit "[bold red]Error: Job ID '" ++ str_of_int job_id
                           ++ lit "' is not a valid integer[/bold red]")
       else console_print (lit "[bold red]Error: " ++ exn_str e
                           ++ lit "[/bold red]")).

End Commands.
End Helper.

(** ** What the specification says, next to the code *)

Module Spec.

(** The status enum of the data model. *)
Definition known_statuses : list pystr :=
  [lit "created"; lit "pending"; lit "running"; lit "success";
   lit "failed"; lit "canceled"; lit "skipped"; lit "manual"].

(** The style the documentation gives to each known status. *)
Definition documented_style : list (pystr * pystr) :=
  [(lit "success", lit "green");
   (lit "failed", lit "red");
   (lit "canceled", lit "red");
   (lit "running", lit "blue");
   (lit "pending", lit "yellow");
   (lit "skipped", lit "grey");
   (lit "created", lit "cyan");
   (lit "manual", lit "magenta")].

(** [getLatestPipeline]: sugar for [listPipelines(1)], the first element
    or absent. *)
Definition getLatestPipeline (remote : Remote) : M (option Pipeline) :=
  l <- GitLabClient.get_pipelines remote 1 ;;
  ret (head l).

(** Most recent first: the service numbers pipelines as it creates them and
    lists them by descending id. *)
Definition most_recent_first (l : list Pipeline) : Prop :=
  StronglySorted (fun p q => pl_id q < pl_id p) l.

(** The service keeps to the page size [per_page] and to its default
    ordering when it answers a list request. *)
Definition honours_page (remote : Remote) (per_page : Z) : Prop :=
  ∀ l, pipelines_list remote per_page = Return l →
       Z.of_nat (length l) ≤ per_page ∧ most_recent_first l.

(** [dict(...)] over the records: insert them one after the other. *)
Definition dict_of_records (rs : list variable_record) : dict :=
  foldl (fun d r => dict_set d (key r) (value r)) [] rs.

(** The records a create request carries: none when the field is [None]. *)
Definition records_of (data : create_data) : list variable_record :=
  default [] (variables data).

(** The text [decode] gives with [errors='replace']: every malformed region
    of the scan becomes one replacement character. *)
Definition replace_malformed (items : list Utf8.utf8_item) : pystr :=
  (fun item =>
     match item with
     | Utf8.Char c => c
     | Utf8.Malformed _ => Utf8.replacement_character
     end) <$> items.

(** "[listPipelines(N)] returns at most [N] pipelines, most recent
    first." *)
Definition page_bound (remote : Remote) (limit : Z) : Prop :=
  ∀ l, result_of (GitLabClient.get_pipelines remote limit) = Return l →
       Z.of_nat (length l) ≤ limit ∧ most_recent_first l.

(** The three causes for which [getJobLog] has no log to give: the id is
    not an integer, the job is absent, the trace fetch fails. *)
Definition log_failure (int_of_str : pystr → option Z) (remote : Remote)
  (job_id : pyid) : Prop :=
  (∃ e, GitLabClient.py_int int_of_str job_id = Raise e)
  ∨ (∃ n e, GitLabClient.py_int int_of_str job_id = Return n
            ∧ jobs_get remote n = Raise e)
  ∨ (∃ n job e, GitLabClient.py_int int_of_str job_id = Return n
                ∧ jobs_get remote n = Return job
                ∧ job_trace remote job = Raise e).

(** The report of an invalid id, with this id pasted, is one rich prints:
    always so for an integer. *)
Definition id_report_renders (markup_error : pystr → option pystr)
  (job_id : pyid) : Prop :=
  match job_id with
  | IdInt _ => True
  | IdStr _ =>
    markup_error (GitLabClient.invalid_job_id_message job_id) = None
  end.

(** "[getJobLog] of a job that does not exist returns the empty string,
    and the raw-mode renderer prints only the header and footer lines with
    empty content between them." *)
Definition missing_job_rendering (int_of_str : pystr → option Z)
  (markup_error : pystr → option pystr) (remote : Remote) (job_id : Z) : Prop :=
  result_of (GitLabClient.get_job_logs int_of_str markup_error remote
               (IdInt job_id))
    = Return []
  ∧ printed_of (trace_of
      (Helper.get_job_logs int_of_str markup_error remote job_id true))
    = [Helper.logs_header job_id; []; Helper.logs_footer].

End Spec.

(** ** A concrete service, to run the definitions on *)

Module Demo.

Definition is_space (c : N) : bool := ((c =? 32) || ((9 <=? c) && (c <=? 13)))%N.

Definition digit_of (c : N) : option Z :=
  if ((48 <=? c) && (c <=? 57))%N then Some (Z.of_N (c - 48)) else None.

Fixpoint lstrip (s : pystr) : pystr :=
  match s with
  | c :: r => if is_space c then lstrip r else s
  | [] => []
  end.

Definition strip (s : pystr) : pystr := rev (lstrip (rev (lstrip s))).

(** Decimal digits, single underscores allowed between two digits. *)
Fixpoint digits (acc : Z) (after_digit : bool) (s : pystr) : option Z :=
  match s with
  | [] => if after_digit then Some acc else None
  | c :: r =>
    match digit_of c with
    | Some d => digits (10 * acc + d) true r
    | None => if (c =? 95)%N && after_digit then digits acc false r else None
    end
  end.

(** [int] on ASCII text: surrounding white space, a sign, decimal digits. *)
Definition int_of_str (s : pystr) : option Z :=
  match strip s with
  | 43%N :: r => digits 0 false r
  | 45%N :: r => Z.opp <$> digits 0 false r
  | r => digits 0 false r
  end.

Definition pipeline (id : Z) (status sha : string) : Pipeline :=
  {| pl_id := id; pl_status := lit status; pl_ref := lit "main";
     pl_sha := lit sha; pl_created_at := lit "2024-05-01T10:00:00.000Z" |}.

Definition p101 : Pipeline := pipeline 101 "success" "0a1b2c3d4e5f60718293a4b5c6d7e8f901234567".
Definition p102 : Pipeline := pipeline 102 "failed" "1b2c3d4e5f60718293a4b5c6d7e8f90123456789".
Definition p103 : Pipeline := pipeline 103 "running" "2c3d4e5f60718293a4b5c6d7e8f9012345678901".
Definition p104 : Pipeline := pipeline 104 "created" "3d4e5f60718293a4b5c6d7e8f901234567890123".

Definition all_pipelines : list Pipeline := [p103; p102; p101].

Definition job501 : Job :=
  {| jb_id := 501; jb_stage := lit "build"; jb_name := lit "compile";
     jb_status := lit "success" |}.
Definition job502 : Job :=
  {| jb_id := 502; jb_stage := lit "test"; jb_name := lit "unit";
     jb_status := lit "failed" |}.

Definition not_found : exn := Exn GitlabError (lit "404: 404 Not found").

(** The trace of job 501: [ok], a stray byte 0xFF, a line feed. *)
Definition trace501 : list byte := [x6f; x6b; xff; x0a]%byte.

(** Three pipelines, two jobs in pipeline 103; a page size that is not
    positive gives the service's default page. Job 502 has lost its trace. *)
Definition remote : Remote :=
  {| pipelines_list per_page :=
       Return (if per_page <=? 0 then all_pipelines
               else take (Z.to_nat per_page) all_pipelines);
     pipelines_get id :=
       match find (fun p => bool_decide (pl_id p = id)) all_pipelines with
       | Some p => Return p
       | None => Raise not_found
       end;
     pipelines_create data := Return p104;
     pipeline_jobs_list p :=
       if bool_decide (pl_id p = 103) then Return [job501; job502]
       else Raise (Exn OtherError (lit "Connection reset by peer"));
     jobs_get id :=
       if bool_decide (id = 501) then Return job501
       else if bool_decide (id = 502) then Return job502
       else Raise not_found;
     job_trace job :=
       if bool_decide (jb_id job = 501) then Return (TraceBytes trace501)
       else Raise not_found |}.

Definition variables_example : dict :=
  [(lit "FOO", lit "bar"); (lit "BAZ", lit "qux")].

(** A service that refuses a page size that is not positive. *)
Definition strict_remote : Remote :=
  {| pipelines_list per_page :=
       if per_page <=? 0
       then Raise (Exn GitlabError (lit "400: per_page is invalid"))
       else Return (take (Z.to_nat per_page) all_pipelines);
     pipelines_get := pipelines_get remote;
     pipelines_create := pipelines_create remote;
     pipeline_jobs_list := pipeline_jobs_list remote;
     jobs_get := jobs_get remote;
     job_trace := job_trace remote |}.

(** Rich's rule for closing tags, on messages without backslashes whose
    tag names are in normal form. A tag is an opening bracket, a body that
    starts with a small letter, [#], [/] or [@] and holds no opening
    bracket, and the next closing bracket. [[/name]] must match an open
    tag, [[/]] needs one to close; otherwise rich raises [MarkupError]
    with the reason returned here. *)
Inductive markup_state : Type :=
| InText
| InTag (start : nat) (body_rev : pystr).

Definition starts_tag (c : N) : bool :=
  ((97 <=? c) && (c <=? 122) || (c =? 35) || (c =? 47) || (c =? 64))%N.

Fixpoint tag_name (body : pystr) : pystr :=
  match body with
  | [] => []
  | c :: r => if (c =? 61)%N then [] else c :: tag_name r
  end.

Fixpoint close_tag (name : pystr) (open : list pystr) : option (list pystr) :=
  match open with
  | [] => None
  | t :: rest =>
    if decide (t = name) then Some rest
    else cons t <$> close_tag name rest
  end.

(** The open tags after this tag, or the reason to refuse it. *)
Definition after_tag (body : pystr) (start : nat) (open : list pystr)
  : pystr + list pystr :=
  match tag_name body with
  | 47%N :: closing =>
    match strip closing with
    | [] =>
      match open with
      | [] => inl (lit "closing tag '[/]' at position "
                   ++ str_of_int (Z.of_nat start)
                   ++ lit " has nothing to close")
      | _ :: rest => inr rest
      end
    | name =>
      match close_tag name open with
      | Some rest => inr rest
      | None => inl (lit "closing tag '[" ++ body ++ lit "]' at position "
                     ++ str_of_int (Z.of_nat start)
                     ++ lit " doesn't match any open tag")
      end
    end
  | name => inr (strip name :: open)
  end.

Fixpoint scan_markup (s : pystr) (pos : nat) (st : markup_state)
  (open : list pystr) : option pystr :=
  match s with
  | [] => None
  | c :: r =>
    if (c =? 91)%N then scan_markup r (S pos) (InTag pos []) open
    else
      match st with
      | InText => scan_markup r (S pos) InText open
      | InTag start [] =>
        if starts_tag c then scan_markup r (S pos) (InTag start [c]) open
        else scan_markup r (S pos) InText open
      | InTag start body_rev =>
        if (c =? 93)%N then
          match after_tag (rev body_rev) start open with
          | inl reason => Some reason
          | inr open' => scan_markup r (S pos) InText open'
          end
        else scan_markup r (S pos) (InTag start (c :: body_rev)) open
      end
  end.

Definition markup_error (markup : pystr) : option pystr :=
  scan_markup markup 0 InText [].

End Demo.

(** ** Unicode text and its UTF-8 form *)

Module Unicode.

(** A Unicode scalar value: a code point up to U+10FFFF that is not a
    surrogate. *)
Definition is_scalar_value (c : N) : Prop :=
  (c < 0xD800 ∨ 0xE000 ≤ c < 0x110000)%N.

(** The byte of value [n], for [n] below 256. *)
Definition byte_of (n : N) : byte := default x00 (Byte.of_N n).

(** The UTF-8 form of one scalar value: one to four bytes. *)
Definition encode_char (c : N) : list byte :=
  if (c <? 0x80)%N then [byte_of c]
  else if (c <? 0x800)%N then
    [byte_of (0xC0 + c / 64); byte_of (0x80 + c mod 64)]%N
  else if (c <? 0x10000)%N then
    [byte_of (0xE0 + c / 4096); byte_of (0x80 + (c / 64) mod 64);
     byte_of (0x80 + c mod 64)]%N
  else
    [byte_of (0xF0 + c / 262144); byte_of (0x80 + (c / 4096) mod 64);
     byte_of (0x80 + (c / 64) mod 64); byte_of (0x80 + c mod 64)]%N.

(** The code point of a scanned item, if any, is a scalar value. *)
Definition item_is_scalar (item : Utf8.utf8_item) : Prop :=
  match item with
  | Utf8.Char c => is_scalar_value c
  | Utf8.Malformed _ => True
  end.

(** [str.encode('utf-8')] on a text of scalar values. *)
Definition utf8_encode (s : pystr) : list byte :=
  s ≫= encode_char.

End Unicode.

(** ** Tables: [display_pipelines] and [display_jobs] *)

Module Display.

(** A column as [add_column] declares it. *)
Record column : Type := {
  header : pystr;
  justify : pystr;
  style : option pystr }.

(** A rich [Table]: title, columns, and the rows of cells added so far. *)
Record table : Type := {
  title : pystr;
  columns : list column;
  rows : list (list pystr) }.

(** [Table(title=...)]. *)
Definition Table (title : pystr) : table :=
  {| title := title; columns := []; rows := [] |}.

(** [table.add_column(header, justify=..., style=...)]. *)
Definition add_column (t : table) (header justify : pystr)
  (style : option pystr) : table :=
  {| title := title t;
     columns := columns t
                ++ [{| header := header; justify := justify; style := style |}];
     rows := rows t |}.

(** [table.add_row(cell, ...)], called with one cell per column. *)
Definition add_row (t : table) (cells : list pystr) : table :=
  {| title := title t; columns := columns t; rows := rows t ++ [cells] |}.

(** [f"[{status_style}]{status}[/{status_style}]"]. *)
Definition styled_status (status : pystr) : pystr :=
  let status_style := Presentation._get_status_style status in
  lit "[" ++ status_style ++ lit "]" ++ status
  ++ lit "[/" ++ status_style ++ lit "]".

(** The table [display_pipelines] builds before printing it. *)
Definition pipelines_table (pipelines : list Pipeline) : table :=
  let table := Table (lit "GitLab Pipelines") in
  let table := add_column table (lit "ID") (lit "right") (Some (lit "cyan")) in
  let table := add_column table (lit "Status") (lit "left") None in
  let table := add_column table (lit "Ref") (lit "left") None in
  let table := add_column table (lit "SHA") (lit "left") None in
  let table := add_column table (lit "Created At") (lit "left") None in
  foldl (fun table pipeline =>
           add_row table
             [str_of_int (pl_id pipeline);
              styled_status (pl_status pipeline);
              pl_ref pipeline;
              take 8 (pl_sha pipeline);
              pl_created_at pipeline])
        table pipelines.

(** The table [display_jobs] builds before printing it. *)
Definition jobs_table (jobs : list Job) : table :=
  let table := Table (lit "Pipeline Jobs") in
  let table := add_column table (lit "Stage") (lit "left") None in
  let table := add_column table (lit "Job") (lit "left") None in
  let table := add_column table (lit "ID") (lit "right") (Some (lit "cyan")) in
  let table := add_column table (lit "Status") (lit "left") None in
  foldl (fun table job =>
           add_row table
             [jb_stage job;
              jb_name job;
              str_of_int (jb_id job);
              styled_status (jb_status job)])
        table jobs.

(** The styles [_get_status_style] can answer with. *)
Definition palette : list pystr :=
  [lit "green"; lit "red"; lit "blue"; lit "yellow"; lit "grey";
   lit "cyan"; lit "magenta"; lit "white"].

End Display.

(** ** Output of the commands: the effects of the facade, and tables *)

Module Shell.

Inductive output : Type :=
| Effect (ev : event)
| ConsoleTable (t : Display.table).      (* console.print(table) *)

Definition Sh (A : Type) : Type := outcome A * list output.

Definition sh_ret {A} (a : A) : Sh A := (Return a, []).

Definition sh_bind {A B} (m : Sh A) (k : A → Sh B) : Sh B :=
  match m with
  | (Return a, t) => let '(r, t') := k a in (r, t ++ t')
  | (Raise e, t) => (Raise e, t)
  end.

(** A computation of the facade, run from a command. *)
Definition run {A} (m : M A) : Sh A := (m.1, Effect <$> m.2).

Definition sh_console (markup : pystr) : Sh unit := run (console_print markup).

Definition display_pipelines (pipelines : list Pipeline) : Sh unit :=
  (Return tt, [ConsoleTable (Display.pipelines_table pipelines)]).

Definition display_jobs (jobs : list Job) : Sh unit :=
  (Return tt, [ConsoleTable (Display.jobs_table jobs)]).

(** The panels shown: title and highlighted text. *)
Definition panels_of (t : list event) : list (pystr * pystr) :=
  omap (fun ev => match ev with
                  | ConsolePanel title code => Some (title, code)
                  | _ => None
                  end) t.

Definition tables_of (t : list output) : list Display.table :=
  omap (fun o => match o with ConsoleTable tb => Some tb | _ => None end) t.
Definition effects_of (t : list output) : list event :=
  omap (fun o => match o with Effect ev => Some ev | _ => None end) t.

End Shell.

Notation "x <~ m ;; k" := (Shell.sh_bind m (fun x => k))
  (at level 100, m at next level, right associativity).
Notation "m ~;; k" := (Shell.sh_bind m (fun _ => k))
  (at level 100, right associativity).

(** ** The batch commands of [gitlab_helper.py] *)

Module Cli.
Import Shell.

(** What [json.loads] made of the text of [--variables]. *)
Inductive json_value : Type :=
| JsonDict (d : dict)             (* an object whose values are strings *)
| JsonOther (truthy : bool) (type_name : pystr).
                                  (* a list, number, string, bool or null *)

(** How [json.loads] ends on a [str]. *)
Inductive json_outcome : Type :=
| Parsed (v : json_value)
| NotJson                   (* it raises [json.JSONDecodeError] *)
| JsonRaises (e : exn).     (* it raises something else: [RecursionError]
                               on text nested too deep *)

Section Commands.

(** [json.loads]. *)
Variable json_loads : pystr → json_outcome.

(** The client [get_client] returned, connected to its project. *)
Variable remote : Remote.

(** [pipelines list --limit N]; typer has parsed [limit] as an [int]. *)
Definition list_pipelines (limit : Z) : Sh unit :=
  pipelines <~ run (GitLabClient.get_pipelines remote limit) ;;
  display_pipelines pipelines.

(** [pipelines latest]. *)
Definition get_latest_pipeline : Sh unit :=
  pipeline <~ run (GitLabClient.get_latest_pipeline remote) ;;
  match pipeline with
  | Some pipeline => display_pipelines [pipeline]
  | None => sh_console (lit "[bold red]No pipelines found[/bold red]")
  end.

(** [pipelines status PIPELINE_ID]. *)
Definition get_pipeline_status (pipeline_id : Z) : Sh unit :=
  pipeline <~ run (GitLabClient.get_pipeline remote pipeline_id) ;;
  match pipeline with
  | Some pipeline => display_pipelines [pipeline]
  | None =>
    sh_console (lit "[bold red]Pipeline " ++ str_of_int pipeline_id
                ++ lit " not found[/bold red]")
  end.

(** [client.create_pipeline(ref=ref, variables=vars_dict)] for whatever
    [json.loads] returned: a value that is not a dict and is truthy has no
    [items], and the [AttributeError] is handled inside the facade. *)
Definition client_create_pipeline (ref : pystr) (vars_dict : option json_value)
  : M (option Pipeline) :=
  match vars_dict with
  | None => GitLabClient.create_pipeline remote ref None
  | Some (JsonDict d) => GitLabClient.create_pipeline remote ref (Some d)
  | Some (JsonOther truthy type_name) =>
    if truthy then
      console_print (lit "[bold red]Failed to create pipeline: '" ++ type_name
                     ++ lit "' object has no attribute 'items'[/bold red]") ;;;
      ret None
    else GitLabClient.create_pipeline remote ref None
  end.

(** What the command does once [vars_dict] is known. *)
Definition create_and_show (ref : pystr) (vars_dict : option json_value)
  : Sh unit :=
  pipeline <~ run (client_create_pipeline ref vars_dict) ;;
  match pipeline with
  | Some pipeline =>
    sh_console (lit "[bold green]Pipeline created successfully with ID: "
                ++ str_of_int (pl_id pipeline) ++ lit "[/bold green]") ~;;
    display_pipelines [pipeline] ~;;
    sh_console (lit "[bold]Jobs for this pipeline:[/bold]") ~;;
    jobs <~ run (GitLabClient.get_jobs remote (pl_id pipeline)) ;;
    display_jobs jobs
  | None => sh_console (lit "[bold red]Failed to create pipeline[/bold red]")
  end.

(** [pipelines create --ref REF [--variables JSON]]. *)
Definition create_pipeline (ref : pystr) (variables : option pystr) : Sh unit :=
  match variables with
  | Some text =>
    if str_truthy text then
      match json_loads text with
      | Parsed v => create_and_show ref (Some v)
      | NotJson =>
        sh_console (lit "[bold red]Error: Variables must be valid JSON[/bold red]")
      | JsonRaises e => (Raise e, [])
      end
    else create_and_show ref None
  | None => create_and_show ref None
  end.

(** [jobs list PIPELINE_ID]. *)
Definition list_jobs (pipeline_id : Z) : Sh unit :=
  jobs <~ run (GitLabClient.get_jobs remote pipeline_id) ;;
  if list_truthy jobs then display_jobs jobs
  else sh_console (lit "[bold red]No jobs found for pipeline "
                   ++ str_of_int pipeline_id ++ lit "[/bold red]").

End Commands.
End Cli.

(** ** [debug_job_logs.py] *)

Module DebugScript.
Section Script.

Variable int_of_str : pystr → option Z.
Variable markup_error : pystr → option pystr.

(** The client [GitLabClient()] built, connected to its project. *)
Variable remote : Remote.

(** [debug_job_logs(job_id, raw)]: [job_id] is the default integer or the
    text of [sys.argv[1]]. The title of the panel is read as markup, the
    pasted id included. *)
Definition debug_job_logs (job_id : pyid) (raw : bool) : M unit :=
  print (lit "Fetching logs for job ID: " ++ format_id job_id) ;;;
  logs <- GitLabClient.get_job_logs int_of_str markup_error remote job_id ;;
  if str_truthy logs then
    print (lit "Successfully retrieved logs for job #" ++ format_id job_id) ;;;
    if raw then
      print (newline :: lit "--- Logs for Job #" ++ format_id job_id
             ++ lit " ---") ;;;
      print logs ;;;
      print (lit "-----------------------------")
    else
      match job_id, markup_error (lit "Logs for Job #" ++ format_id job_id) with
      | IdStr _, Some reason => lift (Raise (MarkupError reason))
      | _, _ => console_panel (lit "Logs for Job #" ++ format_id job_id) logs
      end
  else
    print (lit "No logs found for job " ++ format_id job_id).

End Script.
End DebugScript.

(** ** Start-up: [GitLabClient.__init__] and [get_client] *)

Module Startup.

(** What [yaml.safe_load] returns, as far as the client looks into it: a
    mapping can be subscripted by a string key, nothing else can. Entries
    of a mapping under keys that are not strings cannot be reached by the
    client and are left out. *)
#[warnings="-register-all"]
Inductive yaml : Type :=
| YNone                                 (* an empty document *)
| YScalar (text : pystr)                (* a string, number or boolean *)
| YSeq (items : list yaml)
| YMap (items : list (pystr * yaml)).

(** The process goes on with a value, or has left through [sys.exit]. *)
Inductive started (A : Type) : Type :=
| Running (a : A)
| Exited (status : Z).
Arguments Running {A} a.
Arguments Exited {A} status.

Definition St (A : Type) : Type := started A * list event.

Definition st_bind {A B} (m : St A) (k : A → St B) : St B :=
  match m with
  | (Running a, t) => let '(r, t') := k a in (r, t ++ t')
  | (Exited status, t) => (Exited status, t)
  end.

(** Sequencing of plain outcomes, inside one [try] block. *)
Definition and_then {A B} (o : outcome A) (k : A → outcome B) : outcome B :=
  match o with
  | Return a => k a
  | Raise e => Raise e
  end.

Fixpoint lookup_key (items : list (pystr * yaml)) (k : pystr) : option yaml :=
  match items with
  | [] => None
  | (k', v) :: rest => if decide (k' = k) then Some v else lookup_key rest k
  end.

Section Process.

(** The [gitlab.Gitlab] instance. *)
Variable gl : Type.

(** [os.path.exists]. *)
Variable path_exists : pystr → bool.

(** [open(path)] followed by [yaml.safe_load]. *)
Variable load_yaml : pystr → outcome yaml.

(** [os.path.expanduser('~/.gitlab-helper.yaml')]. *)
Variable home_config : pystr.

(** The text of the [TypeError] for subscripting a value that is not a
    mapping. *)
Variable type_error_text : yaml → pystr.

(** [gitlab.Gitlab(url=..., private_token=...)]. *)
Variable Gitlab : yaml → yaml → outcome gl.

(** [gl.projects.get(project_id)]. *)
Variable projects_get : gl → yaml → outcome Remote.

(** [value[key]] for a string key: [KeyError] when a mapping lacks the
    key, [TypeError] when the value is not a mapping. *)
Definition subscript (v : yaml) (k : pystr) : outcome yaml :=
  match v with
  | YMap items =>
    match lookup_key items k with
    | Some x => Return x
    | None => Raise (Exn OtherError (lit "'" ++ k ++ lit "'"))
    end
  | _ => Raise (Exn OtherError (type_error_text v))
  end.

(** The list [paths] of [_load_config]. *)
Definition candidates (config_path : option pystr) : list (option pystr) :=
  [config_path; Some (lit "./.gitlab-helper.yaml"); Some home_config].

Definition no_config_message : pystr :=
  lit "[bold red]No valid configuration found. Please create a .gitlab-helper.yaml file.[/bold red]".

(** The loop of [_load_config] over the remaining paths, and what follows
    it. *)
Fixpoint load_first (paths : list (option pystr)) : St yaml :=
  match paths with
  | [] => (Exited 1, [ConsolePrint no_config_message])
  | path :: rest =>
    match path with
    | Some p =>
      if str_truthy p && path_exists p then
        match load_yaml p with
        | Return config => (Running config, [])
        | Raise e =>
          let '(r, t) := load_first rest in
          (r, ConsolePrint (lit "[bold red]Error loading config from " ++ p
                            ++ lit ": " ++ exn_str e ++ lit "[/bold red]") :: t)
        end
      else load_first rest
    | None => load_first rest
    end
  end.

Definition _load_config (config_path : option pystr) : St yaml :=
  load_first (candidates config_path).

Definition _init_gitlab (config : yaml) : St gl :=
  match
    and_then (subscript config (lit "gitlab")) (fun section =>
    and_then (subscript section (lit "url")) (fun url =>
    and_then (subscript config (lit "gitlab")) (fun section =>
    and_then (subscript section (lit "token")) (fun token =>
    Gitlab url token))))
  with
  | Return g => (Running g, [])
  | Raise e =>
    (Exited 1,
     [ConsolePrint (lit "[bold red]Failed to initialize GitLab client: "
                    ++ exn_str e ++ lit "[/bold red]")])
  end.

Definition _get_project (config : yaml) (g : gl) : St Remote :=
  match
    and_then (subscript config (lit "gitlab")) (fun section =>
    and_then (subscript section (lit "project_id")) (fun project_id =>
    projects_get g project_id))
  with
  | Return project => (Running project, [])
  | Raise e =>
    (Exited 1,
     [ConsolePrint (lit "[bold red]Failed to get project: " ++ exn_str e
                    ++ lit "[/bold red]")])
  end.

(** The attributes of a [GitLabClient]. *)
Record client : Type := {
  config : yaml;
  gitlab_api : gl;
  project : Remote }.

(** [GitLabClient(config_path)]. *)
Definition init (config_path : option pystr) : St client :=
  st_bind (_load_config config_path) (fun config =>
  st_bind (_init_gitlab config) (fun g =>
  st_bind (_get_project config g) (fun project =>
  (Running {| config := config; gitlab_api := g; project := project |}, [])))).

(** [get_client(config_path)] of [gitlab_helper.py]; the spinner shown
    meanwhile is transient. *)
Definition get_client (config_path : option pystr) : St client :=
  init config_path.

(** The path is one the loop tries and gets a configuration from. *)
Definition loads (path : option pystr) (config : yaml) : Prop :=
  ∃ p, path = Some p ∧ str_truthy p = true ∧ path_exists p = true
       ∧ load_yaml p = Return config.

(** The path is skipped, or tried in vain. *)
Definition gives_nothing (path : option pystr) : Prop :=
  ∀ p, path = Some p → str_truthy p = true → path_exists p = true →
       ∃ e, load_yaml p = Raise e.

(** The configuration names a service, a token and a project, and the
    service has answered for them with the handles of the client. *)
Definition connected (c : client) : Prop :=
  ∃ section url token project_id,
    subscript (config c) (lit "gitlab") = Return section
    ∧ subscript section (lit "url") = Return url
    ∧ subscript section (lit "token") = Return token
    ∧ subscript section (lit "project_id") = Return project_id
    ∧ Gitlab url token = Return (gitlab_api c)
    ∧ projects_get (gitlab_api c) project_id = Return (project c).

End Process.
End Startup.

(** ** A concrete machine, to run the start-up on *)

Module DemoStartup.
Import Startup.

Definition good_config : yaml :=
  YMap [(lit "gitlab",
         YMap [(lit "url", YScalar (lit "https://gitlab.example.com"));
               (lit "token", YScalar (lit "glpat-demo"));
               (lit "project_id", YScalar (lit "42"))])].

(** A configuration without the project id. *)
Definition partial_config : yaml :=
  YMap [(lit "gitlab",
         YMap [(lit "url", YScalar (lit "https://gitlab.example.com"));
               (lit "token", YScalar (lit "glpat-demo"))])].

(** Four files: a good one in the working directory, a broken one, an
    empty one and one without project id; nothing in the home directory. *)
Definition path_exists (p : pystr) : bool :=
  bool_decide (p ∈ [lit "./.gitlab-helper.yaml"; lit "broken.yaml";
                    lit "empty.yaml"; lit "partial.yaml"]).

Definition load_yaml (p : pystr) : outcome yaml :=
  if bool_decide (p = lit "./.gitlab-helper.yaml") then Return good_config
  else if bool_decide (p = lit "empty.yaml") then Return YNone
  else if bool_decide (p = lit "partial.yaml") then Return partial_config
  else Raise (Exn OtherError (lit "mapping values are not allowed here")).

Definition home_config : pystr := lit "/home/dev/.gitlab-helper.yaml".

Definition type_error_text (v : yaml) : pystr :=
  lit "'NoneType' object is not subscriptable".

Definition Gitlab (url token : yaml) : outcome unit := Return ().

Definition projects_get (g : unit) (project_id : yaml) : outcome Remote :=
  Return Demo.remote.

Definition init (config_path : option pystr) : St (client unit) :=
  Startup.init unit path_exists load_yaml home_config type_error_text
    Gitlab projects_get config_path.

(** A word between double quotes. *)
Definition quoted (word : string) : pystr := 34%N :: lit word ++ [34%N].

(** The text of a JSON object with one member, FOO. *)
Definition variables_text : pystr :=
  lit "{" ++ quoted "FOO" ++ lit ": " ++ quoted "bar" ++ lit "}".

(** A thousand opening brackets. *)
Definition deep_text : pystr := replicate 1000 91%N.

(** [json.loads] on the texts used below. *)
Definition json_loads (text : pystr) : Cli.json_outcome :=
  if bool_decide (text = variables_text)
  then Cli.Parsed (Cli.JsonDict [(lit "FOO", lit "bar")])
  else if bool_decide (text = lit "[1, 2]")
  then Cli.Parsed (Cli.JsonOther true (lit "list"))
  else if bool_decide (text = deep_text)
  then Cli.JsonRaises
         (Exn OtherError
            (lit "maximum recursion depth exceeded while decoding a JSON array from a unicode string"))
  else Cli.NotJson.

End DemoStartup.

(** * Properties *)

Section PresentationProofs.
Import Presentation Spec.

Lemma status_styles_unknown (status : pystr) :
  status ∉ known_statuses → status_styles !! status = None.
Proof.
  intros Hnot. unfold status_styles.
  repeat (rewrite lookup_insert_ne;
          [| intros <-; apply Hnot; unfold known_statuses; set_solver]).
  apply lookup_empty.
Qed.

(** C1. Every status of the enum has its documented style (success green,
    failed and canceled red, running blue, pending yellow, skipped grey,
    created cyan, manual magenta), the documented table covers the whole
    enum, and every string outside the enum gets the neutral style white.
    The function is total: a lookup with a default cannot raise. *)
Theorem status_style_mapping :
  (∀ status style, (status, style) ∈ documented_style →
     _get_status_style status = style) ∧
  (∀ status, status ∈ known_statuses →
     ∃ style, (status, style) ∈ documented_style) ∧
  (∀ status, status ∉ known_statuses →
     _get_status_style status = lit "white").
Proof.
  split; [| split].
  - intros status style Hin. unfold documented_style in Hin.
    repeat (apply elem_of_cons in Hin as [Heq | Hin];
            [injection Heq as -> ->; vm_compute; reflexivity |]).
    by apply elem_of_nil in Hin.
  - intros status Hin. unfold known_statuses in Hin.
    repeat (apply elem_of_cons in Hin as [-> | Hin];
            [eexists; unfold documented_style;
             repeat (first [apply list_elem_of_here | apply list_elem_of_further]) |]).
    by apply elem_of_nil in Hin.
  - intros status Hnot. unfold _get_status_style.
    by rewrite status_styles_unknown.
Qed.

End PresentationProofs.


(** ** Running the effect model *)

Ltac run_facade :=
  unfold GitLabClient.get_job_logs, GitLabClient.get_job, GitLabClient.get_jobs,
    GitLabClient.get_pipeline, GitLabClient.get_pipelines,
    GitLabClient.get_latest_pipeline, GitLabClient.create_pipeline,
    GitLabClient.try_with_int, GitLabClient.first_item,
    GitLabClient.console_print_pasting,
    try_except, bind, call, ret, lift, console_print, console_panel, print,
    result_of, trace_of in *.

(** ** The decoder *)

Section DecoderProofs.
Import Utf8.

Lemma apply_policy_replace (items : list utf8_item) :
  apply_policy Replace items = Return (Spec.replace_malformed items).
Proof.
  induction items as [| [c | why] rest IH]; cbn [apply_policy];
    [done | |]; by rewrite IH.
Qed.

Lemma apply_policy_strict_ok (items : list utf8_item) (t : pystr) :
  apply_policy Strict items = Return t → Spec.replace_malformed items = t.
Proof.
  revert t. induction items as [| [c | why] rest IH];
    cbn [apply_policy]; intros t Hok.
  - by injection Hok.
  - destruct (apply_policy Strict rest) as [s |]; [| done].
    injection Hok as <-. change (c :: Spec.replace_malformed rest = c :: s).
    by rewrite (IH s).
  - done.
Qed.

Lemma apply_policy_strict_raise (items : list utf8_item) (e : exn) :
  apply_policy Strict items = Raise e →
  replacement_character ∈ Spec.replace_malformed items.
Proof.
  induction items as [| [c | why] rest IH]; cbn [apply_policy]; intros Hraise.
  - done.
  - destruct (apply_policy Strict rest) as [s | e']; [done |].
    apply list_elem_of_further, IH. by injection Hraise as ->.
  - apply list_elem_of_here.
Qed.

Lemma decode_replace (bs : list byte) :
  decode Replace bs = Return (Spec.replace_malformed (utf8_scan bs)).
Proof. apply apply_policy_replace. Qed.

End DecoderProofs.

(** ** The facade *)

Section FacadeProofs.

Variable int_of_str : pystr → option Z.
Variable markup_error : pystr → option pystr.
Variable remote : Remote.

Local Abbreviation py_int := (GitLabClient.py_int int_of_str).
Local Abbreviation get_job :=
  (GitLabClient.get_job int_of_str markup_error remote).
Local Abbreviation get_job_logs :=
  (GitLabClient.get_job_logs int_of_str markup_error remote).
Local Abbreviation get_pipelines := (GitLabClient.get_pipelines remote).
Local Abbreviation get_jobs := (GitLabClient.get_jobs remote).
Local Abbreviation create_pipeline := (GitLabClient.create_pipeline remote).

Lemma py_int_IdInt (n : Z) : py_int (IdInt n) = Return n.
Proof. reflexivity. Qed.

Lemma py_int_IdStr_invalid (s : pystr) :
  int_of_str s = None → ∃ e, py_int (IdStr s) = Raise e ∧ is_ValueError e = true.
Proof. intros Hnone. unfold GitLabClient.py_int. rewrite Hnone. by eexists. Qed.

(** [get_job] on an integer id, found or not. *)
Lemma get_job_found (n : Z) (job : Job) :
  jobs_get remote n = Return job →
  get_job (IdInt n) = (Return (Some job), [RemoteCall (JobsGet n)]).
Proof. intros Hget. run_facade. cbn. by rewrite Hget. Qed.

Lemma get_job_absent (n : Z) (e : exn) :
  jobs_get remote n = Raise e →
  get_job (IdInt n) =
    (Return None,
     [RemoteCall (JobsGet n);
      ConsolePrint (if is_ValueError e
                    then GitLabClient.invalid_job_id_message (IdInt n)
                    else GitLabClient.failed_job_message (IdInt n) e)]).
Proof. intros Hget. run_facade. cbn. rewrite Hget. by destruct (is_ValueError e). Qed.

(** The two reports never read the same. *)
Lemma invalid_differs_from_failed (a b : pyid) (e : exn) :
  GitLabClient.invalid_job_id_message a ≠ GitLabClient.failed_job_message b e.
Proof.
  unfold GitLabClient.invalid_job_id_message, GitLabClient.failed_job_message.
  cbn. intros Heq. discriminate Heq.
Qed.

(** C5. When the job is found and its trace is a byte sequence, whatever
    the bytes, [get_job_logs] returns a string and does not raise: the text
    is the scan of the bytes with every malformed region replaced by
    U+FFFD. Well-formed UTF-8 is decoded as the strict decoder would, and
    when the strict decoder would have raised, the text holds a replacement
    character. *)
Theorem job_log_decoding_never_raises (job_id : pyid) (n : Z) (job : Job)
  (bs : list byte) :
  py_int job_id = Return n →
  jobs_get remote n = Return job →
  job_trace remote job = Return (TraceBytes bs) →
  ∃ text,
    result_of (get_job_logs job_id) = Return text
    ∧ text = Spec.replace_malformed (Utf8.utf8_scan bs)
    ∧ (∀ t, Utf8.decode Utf8.Strict bs = Return t → text = t)
    ∧ (∀ e, Utf8.decode Utf8.Strict bs = Raise e →
            Utf8.replacement_character ∈ text).
Proof.
  intros Hint Hget Htrace.
  exists (Spec.replace_malformed (Utf8.utf8_scan bs)). split; [| split; [| split]].
  - unfold GitLabClient.get_job_logs, GitLabClient.try_with_int.
    rewrite Hint, (get_job_found _ _ Hget).
    run_facade. cbn. rewrite Htrace, decode_replace. reflexivity.
  - reflexivity.
  - intros t Hstrict. by apply apply_policy_strict_ok.
  - intros e Hstrict. by apply apply_policy_strict_raise with e.
Qed.

(** X22. If the id is not an integer, or the job is absent, or fetching
    the trace fails, and the report of an invalid text id is one rich
    prints, [get_job_logs] returns the empty string: the three causes give
    the same returned value. *)
Theorem job_log_failures_collapse_when_reported (job_id : pyid) :
  Spec.log_failure int_of_str remote job_id →
  Spec.id_report_renders markup_error job_id →
  result_of (get_job_logs job_id) = Return [].
Proof.
  intros [[e Hint] | [(n & e & Hint & Hget) | (n & job & e & Hint & Hget & Htrace)]]
    Hrenders;
    unfold GitLabClient.get_job_logs, GitLabClient.try_with_int; rewrite Hint.
  - destruct job_id as [n | s]; [done |].
    unfold GitLabClient.py_int in Hint.
    destruct (int_of_str s); [done |]. injection Hint as <-.
    run_facade. cbn in *. by rewrite Hrenders.
  - rewrite (get_job_absent _ _ Hget). reflexivity.
  - rewrite (get_job_found _ _ Hget). run_facade. cbn. rewrite Htrace.
    by destruct (is_ValueError e).
Qed.

(** C4. At an id text that [int] rejects and whose report rich refuses
    (the text holds a closing tag that matches nothing), [get_job_logs]
    does not return the empty string although the id is invalid: the
    [MarkupError] raised while the handler prints leaves the operation. *)
Theorem invalid_id_error_propagates (s reason : pystr) :
  int_of_str s = None →
  markup_error (GitLabClient.invalid_job_id_message (IdStr s)) = Some reason →
  Spec.log_failure int_of_str remote (IdStr s)
  ∧ result_of (get_job_logs (IdStr s)) = Raise (MarkupError reason)
  ∧ result_of (get_job_logs (IdStr s)) ≠ Return [].
Proof.
  intros Hnone Hrefused.
  assert (Hraise : result_of (get_job_logs (IdStr s))
                   = Raise (MarkupError reason)).
  { unfold GitLabClient.get_job_logs, GitLabClient.try_with_int,
      GitLabClient.py_int.
    rewrite Hnone. run_facade. cbn in *. by rewrite Hrefused. }
  split; [| split; [exact Hraise | by rewrite Hraise]].
  left. unfold GitLabClient.py_int. rewrite Hnone. by eexists.
Qed.

(** X21. For an id string that [int] rejects and whose report rich
    prints, [get_job] and [get_job_logs] report the invalid id on the
    console ("Invalid job ID: ... Job ID must be an integer.") and issue
    no request. A valid id whose job the service does not find is reported
    as "Failed to get job ...": the two console outputs differ, while the
    returned values ([None], the empty string) are the same. *)
Theorem invalid_id_is_reported_when_it_renders (s : pystr) :
  int_of_str s = None →
  markup_error (GitLabClient.invalid_job_id_message (IdStr s)) = None →
  get_job (IdStr s) =
    (Return None, [ConsolePrint (GitLabClient.invalid_job_id_message (IdStr s))])
  ∧ get_job_logs (IdStr s) =
    (Return [], [ConsolePrint (GitLabClient.invalid_job_id_message (IdStr s))])
  ∧ ∀ n e, jobs_get remote n = Raise e → is_ValueError e = false →
      console_of (trace_of (get_job (IdInt n)))
        = [GitLabClient.failed_job_message (IdInt n) e]
      ∧ console_of (trace_of (get_job_logs (IdInt n)))
        = [GitLabClient.failed_job_message (IdInt n) e]
      ∧ console_of (trace_of (get_job (IdInt n)))
        ≠ console_of (trace_of (get_job (IdStr s)))
      ∧ console_of (trace_of (get_job_logs (IdInt n)))
        ≠ console_of (trace_of (get_job_logs (IdStr s))).
Proof.
  intros Hnone Hrenders.
  assert (Hjob : get_job (IdStr s) =
    (Return None, [ConsolePrint (GitLabClient.invalid_job_id_message (IdStr s))])).
  { unfold GitLabClient.get_job, GitLabClient.try_with_int, GitLabClient.py_int.
    rewrite Hnone. run_facade. cbn in *. by rewrite Hrenders. }
  assert (Hlogs : get_job_logs (IdStr s) =
    (Return [], [ConsolePrint (GitLabClient.invalid_job_id_message (IdStr s))])).
  { unfold GitLabClient.get_job_logs, GitLabClient.try_with_int, GitLabClient.py_int.
    rewrite Hnone. run_facade. cbn in *. by rewrite Hrenders. }
  split; [exact Hjob | split; [exact Hlogs |]].
  intros n e Hget Hcls.
  assert (Hjob' : console_of (trace_of (get_job (IdInt n)))
                  = [GitLabClient.failed_job_message (IdInt n) e]).
  { rewrite (get_job_absent _ _ Hget), Hcls. reflexivity. }
  assert (Hlogs' : console_of (trace_of (get_job_logs (IdInt n)))
                   = [GitLabClient.failed_job_message (IdInt n) e]).
  { unfold GitLabClient.get_job_logs, GitLabClient.try_with_int.
    rewrite py_int_IdInt, (get_job_absent _ _ Hget), Hcls. reflexivity. }
  split; [exact Hjob' | split; [exact Hlogs' |]].
  rewrite Hjob', Hlogs', Hjob, Hlogs. cbn [trace_of snd console_of omap].
  split; intros Heq; apply (f_equal head) in Heq; cbn [head] in Heq;
    apply (inj Some) in Heq; symmetry in Heq;
    by apply invalid_differs_from_failed in Heq.
Qed.

(** C2. At an id text that [int] rejects and whose report rich refuses
    (the text holds a closing tag that matches nothing), neither [get_job]
    nor [get_job_logs] reports the invalid id: each raises [MarkupError]
    from its handler, with nothing printed and no request sent. *)
Theorem invalid_id_report_is_lost (s reason : pystr) :
  int_of_str s = None →
  markup_error (GitLabClient.invalid_job_id_message (IdStr s)) = Some reason →
  get_job (IdStr s) = (Raise (MarkupError reason), [])
  ∧ get_job_logs (IdStr s) = (Raise (MarkupError reason), []).
Proof.
  intros Hnone Hrefused.
  unfold GitLabClient.get_job, GitLabClient.get_job_logs,
    GitLabClient.try_with_int, GitLabClient.py_int.
  rewrite Hnone. run_facade. cbn in *. by rewrite Hrefused.
Qed.

(** ** Pipelines and jobs *)

Lemma get_pipelines_eq (limit : Z) :
  get_pipelines limit =
    match pipelines_list remote limit with
    | Return l => (Return l, [RemoteCall (PipelinesList limit)])
    | Raise e =>
      (Return [],
       [RemoteCall (PipelinesList limit);
        ConsolePrint (lit "[bold red]Failed to get pipelines: " ++ exn_str e
                      ++ lit "[/bold red]")])
    end.
Proof. run_facade. by destruct (pipelines_list remote limit). Qed.

(** C6. [get_latest_pipeline] is the first element of [get_pipelines(1)]:
    the same result ([None] on the empty sequence) and the same effects as
    the specification's reading, for every service. *)
Theorem latest_pipeline_is_first_of_page :
  GitLabClient.get_latest_pipeline remote = Spec.getLatestPipeline remote.
Proof.
  unfold GitLabClient.get_latest_pipeline, Spec.getLatestPipeline.
  rewrite get_pipelines_eq.
  destruct (pipelines_list remote 1) as [[| p l] | e]; reflexivity.
Qed.

(** C7, as amended. For every [N], [get_pipelines(N)] hands back the page
    the service sends for [per_page=N], unchanged and in the service's
    order, and the empty sequence on error. Hence, for [N >= 0] and a
    service that keeps to the page size and to its ordering, the result
    has at most [N] entries and is most-recent-first. *)
Theorem pipelines_page_passed_through (N : Z) :
  ∃ l, result_of (get_pipelines N) = Return l
       ∧ (∀ page, pipelines_list remote N = Return page → l = page)
       ∧ (∀ e, pipelines_list remote N = Raise e → l = [])
       ∧ (0 ≤ N → Spec.honours_page remote N →
          Z.of_nat (length l) ≤ N ∧ Spec.most_recent_first l).
Proof.
  rewrite get_pipelines_eq.
  destruct (pipelines_list remote N) as [page | e] eqn:Hlist.
  - exists page. split; [done |]. split; [by intros ? [= ->] |].
    split; [done |]. intros _ Hpage. exact (Hpage page Hlist).
  - exists []. split; [done |]. split; [done |]. split; [done |].
    intros Hpos _. split; [cbn; lia | constructor].
Qed.

(** C9. [get_jobs] asks for the pipeline before anything else and never
    raises. When the pipeline cannot be fetched, or listing its jobs
    fails, the result is the empty sequence. *)
Theorem jobs_of_missing_pipeline_empty (pipeline_id : Z) :
  head (requests_of (trace_of (get_jobs pipeline_id)))
    = Some (PipelinesGet pipeline_id)
  ∧ (∃ l, result_of (get_jobs pipeline_id) = Return l)
  ∧ ((∃ e, pipelines_get remote pipeline_id = Raise e)
     ∨ (∃ p e, pipelines_get remote pipeline_id = Return p
               ∧ pipeline_jobs_list remote p = Raise e) →
     result_of (get_jobs pipeline_id) = Return []).
Proof.
  run_facade.
  destruct (pipelines_get remote pipeline_id) as [p | e] eqn:Hget; cbn.
  - destruct (pipeline_jobs_list remote p) as [l | e] eqn:Hjobs; cbn.
    + split; [done | split; [by eexists |]].
      intros [[e He] | (p' & e & [= <-] & He)]; [done | congruence].
    + split; [done | split; [by eexists | done]].
  - split; [done | split; [by eexists | done]].
Qed.

(** ** Creating a pipeline *)

Lemma dict_set_fresh (d : dict) (k v : pystr) :
  k ∉ dict_keys d → dict_set d k v = d ++ [(k, v)].
Proof.
  induction d as [| [k' v'] rest IH]; cbn; intros Hfresh; [done |].
  apply not_elem_of_cons in Hfresh as [Hne Hfresh].
  destruct (decide (k' = k)) as [-> | _]; [done |].
  by rewrite IH.
Qed.

Lemma dict_of_records_app (acc d : dict) :
  dict_wf (acc ++ d) →
  foldl (fun d r => dict_set d (key r) (value r)) acc
        (GitLabClient.variables_list_of d)
  = acc ++ d.
Proof.
  revert acc. induction d as [| [k v] rest IH]; intros acc Hwf; cbn.
  - by rewrite app_nil_r.
  - rewrite dict_set_fresh.
    + rewrite IH; rewrite <- app_assoc; [done | exact Hwf].
    + unfold dict_wf, dict_keys in Hwf. rewrite fmap_app in Hwf.
      apply NoDup_app in Hwf as (_ & Hdisj & _).
      intros Hin. apply (Hdisj k Hin). apply list_elem_of_here.
Qed.

Lemma create_pipeline_request (ref : pystr) (variables : option dict) :
  requests_of (trace_of (create_pipeline ref variables)) =
    [PipelinesCreate
       {| ref := ref;
          variables :=
            match variables with
            | Some d => if dict_truthy d
                        then Some (GitLabClient.variables_list_of d) else None
            | None => None
            end |}].
Proof.
  run_facade. cbn.
  by destruct (pipelines_create remote _).
Qed.

(** C3. A variables dict with [K] items makes [create_pipeline] issue one
    create request that carries exactly [K] records (none, the field being
    [None], exactly when the dict is empty), one per item and in the dict's
    order, each with the item's key and value as they are; inserting the
    records into an empty dict gives the dict back. *)
Theorem create_pipeline_variables_roundtrip (branch : pystr) (vars : dict) :
  dict_wf vars →
  ∃ data,
    requests_of (trace_of (create_pipeline branch (Some vars)))
      = [PipelinesCreate data]
    ∧ ref data = branch
    ∧ (variables data = None ↔ vars = [])
    ∧ length (Spec.records_of data) = length vars
    ∧ (fun r => (key r, value r)) <$> Spec.records_of data = vars
    ∧ Spec.dict_of_records (Spec.records_of data) = vars.
Proof.
  intros Hwf. eexists. split; [apply create_pipeline_request |].
  split; [reflexivity |].
  destruct vars as [| [k v] rest]; [by cbn |].
  split; [by cbn |].
  change (Spec.records_of _)
    with (GitLabClient.variables_list_of ((k, v) :: rest)).
  split; [| split].
  - unfold GitLabClient.variables_list_of. by rewrite length_fmap.
  - unfold GitLabClient.variables_list_of. rewrite <- list_fmap_compose.
    rewrite <- (list_fmap_id ((k, v) :: rest)) at 2.
    apply list_fmap_ext. by intros _ [??] _.
  - unfold Spec.dict_of_records. by rewrite (dict_of_records_app []).
Qed.

(** C10. With an empty variables dict the request carries no records: its
    [variables] field is [None], and the whole run (request, result,
    console) is the one of a call that leaves [variables] out. *)
Theorem create_pipeline_empty_variables (ref : pystr) :
  create_pipeline ref (Some []) = create_pipeline ref None
  ∧ requests_of (trace_of (create_pipeline ref (Some [])))
    = [PipelinesCreate {| ref := ref; variables := None |}].
Proof. split; [reflexivity | apply create_pipeline_request]. Qed.

End FacadeProofs.

(** ** The [jobs logs] command *)

Section HelperProofs.

Variable int_of_str : pystr → option Z.
Variable markup_error : pystr → option pystr.
Variable remote : Remote.

(** C8, as amended. For a job the service does not find, [get_job_logs]
    returns the empty string and does not raise. The command then takes
    the branch of the empty log: in raw mode as in highlighted mode its
    whole output is the facade's report of the failed fetch followed by
    "No logs found for job <id>"; it writes no header, log or footer line
    and shows no panel. *)
Theorem missing_job_shows_no_logs_found (job_id : Z) (raw : bool) (e : exn) :
  jobs_get remote job_id = Raise e →
  GitLabClient.get_job_logs int_of_str markup_error remote (IdInt job_id)
    = (Return [],
       [RemoteCall (JobsGet job_id);
        ConsolePrint (if is_ValueError e
                      then GitLabClient.invalid_job_id_message (IdInt job_id)
                      else GitLabClient.failed_job_message (IdInt job_id) e)])
  ∧ Helper.get_job_logs int_of_str markup_error remote job_id raw
    = (Return (),
       [RemoteCall (JobsGet job_id);
        ConsolePrint (if is_ValueError e
                      then GitLabClient.invalid_job_id_message (IdInt job_id)
                      else GitLabClient.failed_job_message (IdInt job_id) e);
        ConsolePrint (Helper.no_logs_message job_id)])
  ∧ printed_of
      (trace_of (Helper.get_job_logs int_of_str markup_error remote job_id raw))
    = []
  ∧ Shell.panels_of
      (trace_of (Helper.get_job_logs int_of_str markup_error remote job_id raw))
    = [].
Proof.
  intros Hget.
  assert (Hlogs :
    GitLabClient.get_job_logs int_of_str markup_error remote (IdInt job_id)
    = (Return [],
       [RemoteCall (JobsGet job_id);
        ConsolePrint (if is_ValueError e
                      then GitLabClient.invalid_job_id_message (IdInt job_id)
                      else GitLabClient.failed_job_message (IdInt job_id) e)])).
  { unfold GitLabClient.get_job_logs, GitLabClient.try_with_int.
    by rewrite py_int_IdInt, (get_job_absent _ _ _ _ _ Hget). }
  split; [exact Hlogs |].
  unfold Helper.get_job_logs. rewrite Hlogs. by destruct raw.
Qed.

End HelperProofs.

(** ** The definitions at work on the concrete service *)

Example demo_int_of_str :
  Demo.int_of_str <$> [lit "501"; lit " -12_3 "; lit "12a"; lit ""; lit "1__2"]
  = [Some 501; Some (-123); None; None; None].
Proof. reflexivity. Qed.

Example demo_decode_replace :
  Utf8.decode Utf8.Replace [xe2; x82; xac; xed; xa0; x80; xf0; x9f]%byte
  = Return [0x20AC; 0xFFFD; 0xFFFD; 0xFFFD; 0xFFFD]%N.
Proof. reflexivity. Qed.

Example demo_decode_strict_raises :
  Utf8.decode Utf8.Strict Demo.trace501
  = Raise (Exn UnicodeDecodeError (lit "invalid start byte")).
Proof. reflexivity. Qed.

Example demo_raw_logs_of_existing_job :
  printed_of (trace_of (Helper.get_job_logs Demo.int_of_str Demo.markup_error Demo.remote 501 true))
  = [newline :: lit "--- Logs for Job #501 ---";
     [0x6F; 0x6B; 0xFFFD; 0x0A]%N;
     lit "-----------------------------"].
Proof. reflexivity. Qed.

Lemma status_style_mapping_witness :
  Presentation._get_status_style (lit "success") = lit "green"
  ∧ Presentation._get_status_style (lit "waiting_for_resource") = lit "white".
Proof.
  destruct status_style_mapping as (Hknown & _ & Hunknown). split.
  - apply Hknown. apply list_elem_of_here.
  - apply Hunknown. apply (bool_decide_unpack _). vm_compute. exact I.
Defined.

Lemma invalid_id_report_is_lost_witness :
  Demo.int_of_str (lit "[/x]") = None
  ∧ Demo.markup_error
      (lit "[bold red]Invalid job ID: [/x]. Job ID must be an integer.[/bold red]")
    = Some (lit "closing tag '[/x]' at position 26 doesn't match any open tag")
  ∧ GitLabClient.get_job Demo.int_of_str Demo.markup_error Demo.remote
      (IdStr (lit "[/x]"))
    = (Raise (MarkupError
         (lit "closing tag '[/x]' at position 26 doesn't match any open tag")),
       [])
  ∧ GitLabClient.get_job_logs Demo.int_of_str Demo.markup_error Demo.remote
      (IdStr (lit "[/x]"))
    = (Raise (MarkupError
         (lit "closing tag '[/x]' at position 26 doesn't match any open tag")),
       []).
Proof.
  split; [reflexivity | split; [reflexivity |]].
  exact (invalid_id_report_is_lost Demo.int_of_str Demo.markup_error Demo.remote
           (lit "[/x]")
           (lit "closing tag '[/x]' at position 26 doesn't match any open tag")
           eq_refl eq_refl).
Defined.

Lemma invalid_id_is_reported_when_it_renders_witness :
  Demo.int_of_str (lit "abc") = None
  ∧ GitLabClient.get_job Demo.int_of_str Demo.markup_error Demo.remote
      (IdStr (lit "abc"))
    = (Return None,
       [ConsolePrint
          (lit "[bold red]Invalid job ID: abc. Job ID must be an integer.[/bold red]")])
  ∧ console_of (trace_of
      (GitLabClient.get_job_logs Demo.int_of_str Demo.markup_error Demo.remote
         (IdInt 9999)))
    = [lit "[bold red]Failed to get job 9999: 404: 404 Not found[/bold red]"].
Proof.
  destruct (invalid_id_is_reported_when_it_renders Demo.int_of_str
              Demo.markup_error Demo.remote (lit "abc") eq_refl eq_refl)
    as (Hjob & _ & Hfound).
  destruct (Hfound 9999 Demo.not_found eq_refl eq_refl) as (_ & Hlogs & _).
  split; [reflexivity | split; [exact Hjob | exact Hlogs]].
Defined.

Lemma create_pipeline_variables_roundtrip_witness :
  dict_wf Demo.variables_example
  ∧ ∃ data,
      requests_of (trace_of
        (GitLabClient.create_pipeline Demo.remote (lit "main")
           (Some Demo.variables_example)))
        = [PipelinesCreate data]
      ∧ length (Spec.records_of data) = 2%nat
      ∧ Spec.dict_of_records (Spec.records_of data) = Demo.variables_example.
Proof.
  assert (Hwf : dict_wf Demo.variables_example).
  { apply (bool_decide_unpack _). vm_compute. exact I. }
  split; [exact Hwf |].
  destruct (create_pipeline_variables_roundtrip Demo.remote (lit "main")
              Demo.variables_example Hwf)
    as (data & Hreq & _ & _ & Hlen & _ & Hback).
  exists data. split; [exact Hreq | split; [exact Hlen | exact Hback]].
Defined.

Lemma invalid_id_error_propagates_witness :
  Spec.log_failure Demo.int_of_str Demo.remote (IdStr (lit "[/x]"))
  ∧ result_of
      (GitLabClient.get_job_logs Demo.int_of_str Demo.markup_error Demo.remote
         (IdStr (lit "[/x]")))
    = Raise (MarkupError
        (lit "closing tag '[/x]' at position 26 doesn't match any open tag")).
Proof.
  destruct (invalid_id_error_propagates Demo.int_of_str Demo.markup_error
              Demo.remote (lit "[/x]")
              (lit "closing tag '[/x]' at position 26 doesn't match any open tag")
              eq_refl eq_refl) as (Hfailure & Hraise & _).
  split; [exact Hfailure | exact Hraise].
Defined.

Lemma job_log_failures_collapse_when_reported_witness :
  Spec.log_failure Demo.int_of_str Demo.remote (IdStr (lit "abc"))
  ∧ Spec.log_failure Demo.int_of_str Demo.remote (IdInt 9999)
  ∧ Spec.log_failure Demo.int_of_str Demo.remote (IdInt 502)
  ∧ result_of (GitLabClient.get_job_logs Demo.int_of_str Demo.markup_error
                 Demo.remote (IdStr (lit "abc"))) = Return []
  ∧ result_of (GitLabClient.get_job_logs Demo.int_of_str Demo.markup_error
                 Demo.remote (IdInt 9999)) = Return []
  ∧ result_of (GitLabClient.get_job_logs Demo.int_of_str Demo.markup_error
                 Demo.remote (IdInt 502)) = Return [].
Proof.
  assert (H1 : Spec.log_failure Demo.int_of_str Demo.remote (IdStr (lit "abc"))).
  { left. eexists. reflexivity. }
  assert (H2 : Spec.log_failure Demo.int_of_str Demo.remote (IdInt 9999)).
  { right. left. exists 9999, Demo.not_found. split; reflexivity. }
  assert (H3 : Spec.log_failure Demo.int_of_str Demo.remote (IdInt 502)).
  { right. right. exists 502, Demo.job502, Demo.not_found.
    split; [reflexivity | split; reflexivity]. }
  split; [exact H1 | split; [exact H2 | split; [exact H3 |]]].
  split; [| split].
  - exact (job_log_failures_collapse_when_reported _ Demo.markup_error _ _ H1
             eq_refl).
  - exact (job_log_failures_collapse_when_reported _ Demo.markup_error _ _ H2 I).
  - exact (job_log_failures_collapse_when_reported _ Demo.markup_error _ _ H3 I).
Defined.

Lemma job_log_decoding_never_raises_witness :
  ∃ text,
    result_of (GitLabClient.get_job_logs Demo.int_of_str Demo.markup_error Demo.remote
                 (IdStr (lit "501"))) = Return text
    ∧ text = [0x6F; 0x6B; 0xFFFD; 0x0A]%N
    ∧ Utf8.replacement_character ∈ text.
Proof.
  destruct (job_log_decoding_never_raises Demo.int_of_str Demo.markup_error Demo.remote
              (IdStr (lit "501")) 501 Demo.job501 Demo.trace501
              eq_refl eq_refl eq_refl) as (text & Hres & Htext & _ & Hmark).
  exists text. split; [exact Hres | split; [exact Htext |]].
  exact (Hmark _ eq_refl).
Defined.

Lemma pipelines_page_passed_through_witness :
  ∃ l, result_of (GitLabClient.get_pipelines Demo.remote 2) = Return l
       ∧ l = [Demo.p103; Demo.p102]
       ∧ Z.of_nat (length l) ≤ 2.
Proof.
  assert (Hpage : Spec.honours_page Demo.remote 2).
  { intros l Hl. injection Hl as <-. split.
    - vm_compute. discriminate.
    - repeat constructor. }
  destruct (pipelines_page_passed_through Demo.remote 2)
    as (l & Hres & Hsame & _ & Hbound).
  exists l. split; [exact Hres | split].
  - apply Hsame. reflexivity.
  - exact (proj1 (Hbound ltac:(lia) Hpage)).
Defined.

Lemma missing_job_shows_no_logs_found_witness :
  Helper.get_job_logs Demo.int_of_str Demo.markup_error Demo.remote 9999 true
  = (Return (),
     [RemoteCall (JobsGet 9999);
      ConsolePrint
        (lit "[bold red]Failed to get job 9999: 404: 404 Not found[/bold red]");
      ConsolePrint (lit "[bold red]No logs found for job 9999[/bold red]")]).
Proof.
  destruct (missing_job_shows_no_logs_found Demo.int_of_str Demo.markup_error
              Demo.remote 9999 true Demo.not_found eq_refl)
    as (_ & Hcommand & _).
  exact Hcommand.
Defined.

Lemma jobs_of_missing_pipeline_empty_witness :
  result_of (GitLabClient.get_jobs Demo.remote 9999) = Return []
  ∧ result_of (GitLabClient.get_jobs Demo.remote 102) = Return [].
Proof.
  split.
  - apply (jobs_of_missing_pipeline_empty Demo.remote 9999).
    left. exists Demo.not_found. reflexivity.
  - apply (jobs_of_missing_pipeline_empty Demo.remote 102).
    right. exists Demo.p102. eexists. split; reflexivity.
Defined.

(** C7, as stated, fails, and for two reasons. Asked for no pipeline at
    all, the facade hands back the three pipelines of the page a service
    sends that does not keep to the page size: the bound is the service's.
    Asked for [-1] pipelines of a service that refuses such a page size,
    and so never sends too long a page, the facade returns the empty
    sequence, which has more than [-1] entries: the limit must not be
    negative. *)
Lemma page_bound_needs_both_conditions :
  (0 ≤ 0 ∧ ¬ Spec.page_bound Demo.remote 0)
  ∧ (Spec.honours_page Demo.strict_remote (-1)
     ∧ ¬ Spec.page_bound Demo.strict_remote (-1)).
Proof.
  split; [split; [lia |] | split].
  - intros Hbound. destruct (Hbound Demo.all_pipelines eq_refl) as [Hlen _].
    vm_compute in Hlen. by apply Hlen.
  - intros l Hl. vm_compute in Hl. discriminate Hl.
  - intros Hbound. destruct (Hbound [] eq_refl) as [Hlen _].
    vm_compute in Hlen. by apply Hlen.
Qed.

(** C8, as stated, fails: for the missing job 9999 the raw-mode command
    writes no header and no footer. *)
Lemma missing_job_prints_no_brackets :
  ¬ Spec.missing_job_rendering Demo.int_of_str Demo.markup_error Demo.remote 9999.
Proof. intros [_ Hprinted]. vm_compute in Hprinted. discriminate Hprinted. Qed.

(** * Further properties of the facade *)

Section FacadeRuns.

Variable int_of_str : pystr → option Z.
Variable markup_error : pystr → option pystr.
Variable remote : Remote.

Local Abbreviation py_int := (GitLabClient.py_int int_of_str).
Local Abbreviation get_job :=
  (GitLabClient.get_job int_of_str markup_error remote).
Local Abbreviation get_job_logs :=
  (GitLabClient.get_job_logs int_of_str markup_error remote).
Local Abbreviation get_pipelines := (GitLabClient.get_pipelines remote).
Local Abbreviation get_pipeline := (GitLabClient.get_pipeline remote).
Local Abbreviation get_jobs := (GitLabClient.get_jobs remote).
Local Abbreviation create_pipeline := (GitLabClient.create_pipeline remote).

(** Every run of [get_pipeline], [get_jobs], [get_job] and [get_job_logs],
    spelled out by what the service answers. *)

Lemma get_pipeline_eq (pipeline_id : Z) :
  get_pipeline pipeline_id =
    match pipelines_get remote pipeline_id with
    | Return p => (Return (Some p), [RemoteCall (PipelinesGet pipeline_id)])
    | Raise e =>
      (Return None,
       [RemoteCall (PipelinesGet pipeline_id);
        ConsolePrint (lit "[bold red]Failed to get pipeline "
                      ++ str_of_int pipeline_id ++ lit ": " ++ exn_str e
                      ++ lit "[/bold red]")])
    end.
Proof. run_facade. by destruct (pipelines_get remote pipeline_id). Qed.

Lemma get_jobs_eq (pipeline_id : Z) :
  get_jobs pipeline_id =
    match pipelines_get remote pipeline_id with
    | Return p =>
      match pipeline_jobs_list remote p with
      | Return l =>
        (Return l, [RemoteCall (PipelinesGet pipeline_id);
                    RemoteCall (PipelineJobsList p)])
      | Raise e =>
        (Return [],
         [RemoteCall (PipelinesGet pipeline_id);
          RemoteCall (PipelineJobsList p);
          ConsolePrint (lit "[bold red]Failed to get jobs for pipeline "
                        ++ str_of_int pipeline_id ++ lit ": " ++ exn_str e
                        ++ lit "[/bold red]")])
      end
    | Raise e =>
      (Return [],
       [RemoteCall (PipelinesGet pipeline_id);
        ConsolePrint (lit "[bold red]Failed to get pipeline "
                      ++ str_of_int pipeline_id ++ lit ": " ++ exn_str e
                      ++ lit "[/bold red]")])
    end.
Proof.
  unfold GitLabClient.get_jobs. rewrite get_pipeline_eq.
  destruct (pipelines_get remote pipeline_id) as [p | e]; [| reflexivity].
  run_facade. cbn. by destruct (pipeline_jobs_list remote p).
Qed.

Lemma create_pipeline_eq (branch : pystr) (vars : option dict) :
  ∃ data,
    create_pipeline branch vars =
      match pipelines_create remote data with
      | Return p => (Return (Some p), [RemoteCall (PipelinesCreate data)])
      | Raise e =>
        (Return None,
         [RemoteCall (PipelinesCreate data);
          ConsolePrint (lit "[bold red]Failed to create pipeline: "
                        ++ exn_str e ++ lit "[/bold red]")])
      end.
Proof.
  exists {| ref := branch;
            variables :=
              match vars with
              | Some d => if dict_truthy d
                          then Some (GitLabClient.variables_list_of d) else None
              | None => None
              end |}.
  run_facade. cbn.
  by destruct (pipelines_create remote _).
Qed.

Lemma py_int_raises (job_id : pyid) (e : exn) :
  py_int job_id = Raise e →
  ∃ s, job_id = IdStr s ∧ int_of_str s = None ∧ is_ValueError e = true.
Proof.
  destruct job_id as [n | s]; [done |]. unfold GitLabClient.py_int.
  destruct (int_of_str s) eqn:Hs; [done |]. intros [= <-]. by exists s.
Qed.

(** Printing a message with the id pasted: it is printed, or the id is a
    text and rich refuses the message. *)
Lemma pasting_cases (job_id : pyid) (markup : pystr) :
  GitLabClient.console_print_pasting markup_error job_id markup
    = (Return (), [ConsolePrint markup])
  ∨ ∃ s reason,
      job_id = IdStr s ∧ markup_error markup = Some reason
      ∧ GitLabClient.console_print_pasting markup_error job_id markup
        = (Raise (MarkupError reason), []).
Proof.
  unfold GitLabClient.console_print_pasting.
  destruct job_id as [n | s]; [by left |].
  destruct (markup_error markup) as [reason |] eqn:Hm; [| by left].
  right. by exists s, reason.
Qed.

Lemma get_job_eq (job_id : pyid) :
  get_job job_id =
    match py_int job_id with
    | Raise e =>
      GitLabClient.console_print_pasting markup_error job_id
        (if is_ValueError e
         then GitLabClient.invalid_job_id_message job_id
         else GitLabClient.failed_job_message job_id e) ;;;
      ret None
    | Return n =>
      match jobs_get remote n with
      | Return job => (Return (Some job), [RemoteCall (JobsGet n)])
      | Raise e =>
        (Return None,
         [RemoteCall (JobsGet n);
          ConsolePrint (if is_ValueError e
                        then GitLabClient.invalid_job_id_message (IdInt n)
                        else GitLabClient.failed_job_message (IdInt n) e)])
      end
    end.
Proof.
  unfold GitLabClient.get_job, GitLabClient.try_with_int.
  destruct (py_int job_id) as [n | e].
  - run_facade. cbn.
    destruct (jobs_get remote n) as [job | e]; [done |].
    by destruct (is_ValueError e).
  - by destruct (is_ValueError e).
Qed.

Lemma get_job_logs_eq (job_id : pyid) :
  get_job_logs job_id =
    match py_int job_id with
    | Raise e =>
      GitLabClient.console_print_pasting markup_error job_id
        (if is_ValueError e
         then GitLabClient.invalid_job_id_message job_id
         else GitLabClient.failed_logs_message job_id e) ;;;
      ret []
    | Return n =>
      match jobs_get remote n with
      | Raise e =>
        (Return [],
         [RemoteCall (JobsGet n);
          ConsolePrint (if is_ValueError e
                        then GitLabClient.invalid_job_id_message (IdInt n)
                        else GitLabClient.failed_job_message (IdInt n) e)])
      | Return job =>
        match job_trace remote job with
        | Raise e =>
          (Return [],
           [RemoteCall (JobsGet n); RemoteCall (JobTrace job);
            ConsolePrint (if is_ValueError e
                          then GitLabClient.invalid_job_id_message (IdInt n)
                          else GitLabClient.failed_logs_message (IdInt n) e)])
        | Return (TraceBytes bs) =>
          (Return (Spec.replace_malformed (Utf8.utf8_scan bs)),
           [RemoteCall (JobsGet n); RemoteCall (JobTrace job)])
        | Return (TraceStr s) =>
          (Return s, [RemoteCall (JobsGet n); RemoteCall (JobTrace job)])
        end
      end
    end.
Proof.
  unfold GitLabClient.get_job_logs, GitLabClient.try_with_int.
  destruct (py_int job_id) as [n | e].
  - rewrite get_job_eq, py_int_IdInt.
    destruct (jobs_get remote n) as [job | e]; [| reflexivity].
    run_facade. cbn.
    destruct (job_trace remote job) as [[bs | s] | e]; cbn.
    + by rewrite decode_replace.
    + done.
    + by destruct (is_ValueError e).
  - by destruct (is_ValueError e).
Qed.

(** X1. The operations that take integers never raise, whatever the
    service answers: [get_pipelines], [get_pipeline],
    [get_latest_pipeline], [create_pipeline], [get_jobs], and [get_job]
    and [get_job_logs] on an integer id. On a text id [get_job] and
    [get_job_logs] return a value too, with one exception: when [int]
    rejects the text and rich refuses the report of the invalid id, the
    [MarkupError] leaves the operation, nothing printed and nothing sent. *)
Theorem facade_raises_only_from_id_report :
  (∀ limit, ∃ l, result_of (get_pipelines limit) = Return l)
  ∧ (∀ pipeline_id, ∃ p, result_of (get_pipeline pipeline_id) = Return p)
  ∧ (∃ p, result_of (GitLabClient.get_latest_pipeline remote) = Return p)
  ∧ (∀ branch vars, ∃ p, result_of (create_pipeline branch vars) = Return p)
  ∧ (∀ pipeline_id, ∃ l, result_of (get_jobs pipeline_id) = Return l)
  ∧ (∀ n, ∃ j, result_of (get_job (IdInt n)) = Return j)
  ∧ (∀ n, ∃ s, result_of (get_job_logs (IdInt n)) = Return s)
  ∧ (∀ job_id,
       (∃ j, result_of (get_job job_id) = Return j)
       ∨ ∃ s reason,
           job_id = IdStr s ∧ int_of_str s = None
           ∧ markup_error (GitLabClient.invalid_job_id_message job_id)
             = Some reason
           ∧ get_job job_id = (Raise (MarkupError reason), []))
  ∧ (∀ job_id,
       (∃ s, result_of (get_job_logs job_id) = Return s)
       ∨ ∃ s reason,
           job_id = IdStr s ∧ int_of_str s = None
           ∧ markup_error (GitLabClient.invalid_job_id_message job_id)
             = Some reason
           ∧ get_job_logs job_id = (Raise (MarkupError reason), [])).
Proof.
  assert (Hjob : ∀ job_id,
    (∃ j, result_of (get_job job_id) = Return j)
    ∨ ∃ s reason,
        job_id = IdStr s ∧ int_of_str s = None
        ∧ markup_error (GitLabClient.invalid_job_id_message job_id)
          = Some reason
        ∧ get_job job_id = (Raise (MarkupError reason), [])).
  { intros job_id. rewrite get_job_eq.
    destruct (py_int job_id) as [n | e] eqn:Hint.
    - left. destruct (jobs_get remote n); by eexists.
    - destruct (py_int_raises _ _ Hint) as (s & -> & Hnone & ->).
      destruct (pasting_cases (IdStr s)
                  (GitLabClient.invalid_job_id_message (IdStr s)))
        as [-> | (s' & reason & _ & Hm & ->)].
      + left. by eexists.
      + right. by exists s, reason. }
  assert (Hlogs : ∀ job_id,
    (∃ s, result_of (get_job_logs job_id) = Return s)
    ∨ ∃ s reason,
        job_id = IdStr s ∧ int_of_str s = None
        ∧ markup_error (GitLabClient.invalid_job_id_message job_id)
          = Some reason
        ∧ get_job_logs job_id = (Raise (MarkupError reason), [])).
  { intros job_id. rewrite get_job_logs_eq.
    destruct (py_int job_id) as [n | e] eqn:Hint.
    - left. destruct (jobs_get remote n) as [job |]; [| by eexists].
      destruct (job_trace remote job) as [[bs | s] |]; by eexists.
    - destruct (py_int_raises _ _ Hint) as (s & -> & Hnone & ->).
      destruct (pasting_cases (IdStr s)
                  (GitLabClient.invalid_job_id_message (IdStr s)))
        as [-> | (s' & reason & _ & Hm & ->)].
      + left. by eexists.
      + right. by exists s, reason. }
  split; [| split; [| split; [| split; [| split; [| split; [| split; [| split]]]]]]].
  - intros limit. rewrite get_pipelines_eq.
    destruct (pipelines_list remote limit); by eexists.
  - intros pipeline_id. rewrite get_pipeline_eq.
    destruct (pipelines_get remote pipeline_id); by eexists.
  - unfold GitLabClient.get_latest_pipeline. rewrite get_pipelines_eq.
    destruct (pipelines_list remote 1) as [[| p l] | e]; by eexists.
  - intros branch vars. destruct (create_pipeline_eq branch vars) as [data ->].
    destruct (pipelines_create remote data); by eexists.
  - intros pipeline_id. rewrite get_jobs_eq.
    destruct (pipelines_get remote pipeline_id) as [p |]; [| by eexists].
    destruct (pipeline_jobs_list remote p); by eexists.
  - intros n. destruct (Hjob (IdInt n)) as [? | (? & ? & [=] & _)]; done.
  - intros n. destruct (Hlogs (IdInt n)) as [? | (? & ? & [=] & _)]; done.
  - exact Hjob.
  - exact Hlogs.
Qed.

(** X2. An operation reports at most one failure on the console, and a
    result that holds data comes without any report: a pipeline, a job, a
    non-empty list or a non-empty log is never accompanied by an error
    line. *)
Theorem data_comes_without_report :
  (∀ pipeline_id,
     (length (console_of (trace_of (get_pipeline pipeline_id))) ≤ 1)%nat
     ∧ (∀ p, result_of (get_pipeline pipeline_id) = Return (Some p) →
             console_of (trace_of (get_pipeline pipeline_id)) = []))
  ∧ (∀ pipeline_id,
     (length (console_of (trace_of (get_jobs pipeline_id))) ≤ 1)%nat
     ∧ (∀ l, result_of (get_jobs pipeline_id) = Return l → l ≠ [] →
             console_of (trace_of (get_jobs pipeline_id)) = []))
  ∧ (∀ job_id,
     (length (console_of (trace_of (get_job job_id))) ≤ 1)%nat
     ∧ (∀ j, result_of (get_job job_id) = Return (Some j) →
             console_of (trace_of (get_job job_id)) = []))
  ∧ (∀ job_id,
     (length (console_of (trace_of (get_job_logs job_id))) ≤ 1)%nat
     ∧ (∀ s, result_of (get_job_logs job_id) = Return s → s ≠ [] →
             console_of (trace_of (get_job_logs job_id)) = [])).
Proof.
  split; [| split; [| split]].
  - intros pipeline_id. rewrite get_pipeline_eq.
    destruct (pipelines_get remote pipeline_id); cbn; split; (lia || done).
  - intros pipeline_id. rewrite get_jobs_eq.
    destruct (pipelines_get remote pipeline_id) as [p |]; cbn.
    + destruct (pipeline_jobs_list remote p); cbn; split;
        first [lia | done | by intros ? [= <-]].
    + split; [lia | by intros ? [= <-]].
  - intros job_id. rewrite get_job_eq.
    destruct (py_int job_id) as [n | e].
    + destruct (jobs_get remote n); cbn; split; (lia || done).
    + destruct (pasting_cases job_id
                  (if is_ValueError e
                   then GitLabClient.invalid_job_id_message job_id
                   else GitLabClient.failed_job_message job_id e))
        as [-> | (s & reason & _ & _ & ->)]; cbn; split; (lia || done).
  - intros job_id. rewrite get_job_logs_eq.
    destruct (py_int job_id) as [n | e].
    + destruct (jobs_get remote n) as [job |]; cbn;
        [| split; [lia | by intros ? [= <-]]].
      destruct (job_trace remote job) as [[bs | s] |]; cbn; split;
        first [lia | done | by intros ? [= <-]].
    + destruct (pasting_cases job_id
                  (if is_ValueError e
                   then GitLabClient.invalid_job_id_message job_id
                   else GitLabClient.failed_logs_message job_id e))
        as [-> | (s & reason & _ & _ & ->)]; cbn; split;
        first [lia | done | by intros ? [= <-]].
Qed.

(** X3. [get_job_logs] sends nothing for an id that is not an integer,
    asks for the job first, and asks for a trace only of a job the service
    has returned for that id. *)
Theorem trace_only_of_fetched_job (job_id : pyid) :
  match requests_of (trace_of (get_job_logs job_id)) with
  | [] => ∃ e, py_int job_id = Raise e
  | [JobsGet n] => py_int job_id = Return n ∧ ∃ e, jobs_get remote n = Raise e
  | [JobsGet n; JobTrace job] =>
    py_int job_id = Return n ∧ jobs_get remote n = Return job
  | _ => False
  end.
Proof.
  rewrite get_job_logs_eq.
  destruct (py_int job_id) as [n | e].
  - destruct (jobs_get remote n) as [job | e] eqn:Hget; cbn; [| by eauto].
    destruct (job_trace remote job) as [[bs | s] | e]; cbn; done.
  - destruct (pasting_cases job_id
                (if is_ValueError e
                 then GitLabClient.invalid_job_id_message job_id
                 else GitLabClient.failed_logs_message job_id e))
      as [-> | (s & reason & _ & _ & ->)]; cbn; by eexists.
Qed.

(** X4. [get_jobs] lists the jobs only of the pipeline the service has
    returned for the given id; when the pipeline cannot be fetched, the
    job list is not requested at all. *)
Theorem jobs_only_of_fetched_pipeline (pipeline_id : Z) :
  match requests_of (trace_of (get_jobs pipeline_id)) with
  | [PipelinesGet i] =>
    i = pipeline_id ∧ ∃ e, pipelines_get remote pipeline_id = Raise e
  | [PipelinesGet i; PipelineJobsList p] =>
    i = pipeline_id ∧ pipelines_get remote pipeline_id = Return p
  | _ => False
  end.
Proof.
  rewrite get_jobs_eq.
  destruct (pipelines_get remote pipeline_id) as [p | e]; cbn; [| by eauto].
  destruct (pipeline_jobs_list remote p); cbn; done.
Qed.

(** X5. An id given as text that [int] accepts is handled exactly like
    the integer it denotes: same result, same requests, same console. *)
Theorem numeric_text_id_is_the_integer (s : pystr) (n : Z) :
  int_of_str s = Some n →
  get_job (IdStr s) = get_job (IdInt n)
  ∧ get_job_logs (IdStr s) = get_job_logs (IdInt n).
Proof.
  intros Hint. rewrite !get_job_eq, !get_job_logs_eq.
  unfold GitLabClient.py_int. by rewrite Hint.
Qed.

End FacadeRuns.

(** * Further properties of the decoder *)

Section DecoderFacts.
Import Utf8 Unicode.

(** One step of the scanner: it ends on a truncated sequence, or emits one
    item and goes on after one to four bytes. *)
Ltac split_tests :=
  repeat match goal with
  | |- context [if (?a <? ?b)%N then _ else _] => destruct (N.ltb_spec a b)
  | |- context [if (?a =? ?b)%N then _ else _] => destruct (N.eqb_spec a b)
  | |- context [(?a <=? ?b)%N] => destruct (N.leb_spec a b)
  | |- context [(?a <? ?b)%N] => destruct (N.ltb_spec a b)
  | |- context [(?a =? ?b)%N] => destruct (N.eqb_spec a b)
  | |- context [match ?s with [] => _ | _ :: _ => _ end] => is_var s; destruct s
  | _ => progress cbn [negb andb orb]
  end.

Ltac scalar_bounds :=
  cbn [item_is_scalar]; try exact I; unfold is_scalar_value;
  rewrite ?N.shiftl_mul_pow2;
  change (2 ^ 6)%N with 64%N; change (2 ^ 12)%N with 4096%N;
  change (2 ^ 18)%N with 262144%N; lia.

Ltac step_after k :=
  right; eexists _, k; split; [cbn [length]; lia |];
  split; [reflexivity | scalar_bounds].

Lemma utf8_scan_step (b : byte) (s : list byte) :
  utf8_scan (b :: s) = [Malformed UnexpectedEnd]
  ∨ ∃ item n, (n ≤ length s)%nat
      ∧ utf8_scan (b :: s) = item :: utf8_scan (drop n s)
      ∧ item_is_scalar item.
Proof.
  cbn [utf8_scan]. unfold is_continuation.
  pose proof (Byte.to_N_bounded b) as Hb.
  generalize dependent (to_N b). intros ch Hch.
  split_tests;
    first [ by left | step_after 0%nat | step_after 1%nat
          | step_after 2%nat | step_after 3%nat ].
Qed.

Lemma by_the_rest_of_the_input (P : list byte → Prop) :
  P [] →
  (∀ b s, (∀ n, (n ≤ length s)%nat → P (drop n s)) → P (b :: s)) →
  ∀ bs, P bs.
Proof.
  intros Hnil Hcons bs.
  remember (length bs) as k eqn:Hk. revert bs Hk.
  induction k as [k IH] using lt_wf_ind. intros [| b s] Hk; [exact Hnil |].
  apply Hcons. intros n Hn. apply (IH (length (drop n s))); [| reflexivity].
  rewrite length_drop. cbn in Hk. lia.
Qed.

Lemma utf8_scan_length (bs : list byte) :
  (length (utf8_scan bs) ≤ length bs)%nat.
Proof.
  induction bs as [| b s IH] using by_the_rest_of_the_input; [done |].
  destruct (utf8_scan_step b s) as [-> | (item & n & Hn & -> & _)].
  - cbn. lia.
  - specialize (IH n Hn). rewrite length_drop in IH. cbn. lia.
Qed.

Lemma utf8_scan_scalar (bs : list byte) :
  Forall item_is_scalar (utf8_scan bs).
Proof.
  induction bs as [| b s IH] using by_the_rest_of_the_input; [constructor |].
  destruct (utf8_scan_step b s) as [-> | (item & n & Hn & -> & Hitem)].
  - by repeat constructor.
  - constructor; [exact Hitem | by apply IH].
Qed.

Lemma apply_policy_length (errors : error_policy) (items : list utf8_item)
  (t : pystr) :
  apply_policy errors items = Return t → (length t ≤ length items)%nat.
Proof.
  revert t. induction items as [| [c | why] rest IH]; cbn [apply_policy];
    intros t Hok.
  - injection Hok as <-. done.
  - destruct (apply_policy errors rest) as [u |]; [| done].
    injection Hok as <-. specialize (IH u eq_refl). cbn. lia.
  - destruct errors; [done | |].
    + destruct (apply_policy Replace rest) as [u |]; [| done].
      injection Hok as <-. specialize (IH u eq_refl). cbn. lia.
    + specialize (IH t Hok). cbn. lia.
Qed.

Lemma apply_policy_scalar (errors : error_policy) (items : list utf8_item)
  (t : pystr) :
  Forall item_is_scalar items →
  apply_policy errors items = Return t → Forall is_scalar_value t.
Proof.
  intros Hitems. revert t.
  induction Hitems as [| [c | why] rest Hitem _ IH]; cbn [apply_policy];
    intros t Hok.
  - injection Hok as <-. constructor.
  - destruct (apply_policy errors rest) as [u |]; [| done].
    injection Hok as <-. constructor; [exact Hitem | by apply IH].
  - destruct errors; [done | |].
    + destruct (apply_policy Replace rest) as [u |]; [| done].
      injection Hok as <-. constructor; [| by apply IH].
      unfold is_scalar_value, replacement_character. lia.
    + by apply IH.
Qed.

(** X6. Whatever the error policy, decoded text has at most as many code
    points as the input has bytes, and every code point of it is a Unicode
    scalar value: no surrogate and nothing above U+10FFFF comes out of the
    decoder. *)
Theorem decoded_text_is_bounded_and_scalar (errors : error_policy)
  (bs : list byte) (t : pystr) :
  decode errors bs = Return t →
  (length t ≤ length bs)%nat ∧ Forall is_scalar_value t.
Proof.
  unfold decode. intros Hok. split.
  - pose proof (apply_policy_length _ _ _ Hok).
    pose proof (utf8_scan_length bs). lia.
  - eapply apply_policy_scalar; [apply utf8_scan_scalar | exact Hok].
Qed.

Lemma utf8_scan_ascii (bs : list byte) :
  Forall (fun b => (to_N b < 0x80)%N) bs →
  utf8_scan bs = (fun b => Char (to_N b)) <$> bs.
Proof.
  induction 1 as [| b s Hb _ IH]; [done |].
  cbn [utf8_scan]. destruct (N.ltb_spec (to_N b) 0x80); [| lia].
  by rewrite IH.
Qed.

Lemma apply_policy_chars (errors : error_policy) (s : pystr) :
  apply_policy errors (Char <$> s) = Return s.
Proof. induction s as [| c s IH]; [done |]. cbn. by rewrite IH. Qed.

(** X7. Bytes below 0x80 decode to themselves: an ASCII trace is returned
    character for character, under every error policy. *)
Theorem ascii_decodes_to_itself (errors : error_policy) (bs : list byte) :
  Forall (fun b => (to_N b < 0x80)%N) bs →
  decode errors bs = Return (to_N <$> bs).
Proof.
  intros Hascii. unfold decode. rewrite (utf8_scan_ascii _ Hascii).
  rewrite (list_fmap_compose to_N Char). apply apply_policy_chars.
Qed.

Lemma to_N_byte_of (n : N) : (n < 256)%N → to_N (byte_of n) = n.
Proof.
  intros Hn. unfold byte_of.
  destruct (Byte.of_N n) as [b |] eqn:Hof; cbn.
  - by apply Byte.to_of_N.
  - apply Byte.of_N_None_iff in Hof. lia.
Qed.


Ltac decide_tests :=
  repeat match goal with
  | |- context [if (?a <? ?b)%N then _ else _] =>
    destruct (N.ltb_spec a b); try (exfalso; lia)
  | |- context [if (?a =? ?b)%N then _ else _] =>
    destruct (N.eqb_spec a b); try (exfalso; lia)
  | |- context [(?a <=? ?b)%N] => destruct (N.leb_spec a b); try (exfalso; lia)
  | |- context [(?a <? ?b)%N] => destruct (N.ltb_spec a b); try (exfalso; lia)
  | |- context [(?a =? ?b)%N] => destruct (N.eqb_spec a b); try (exfalso; lia)
  | _ => progress cbn [negb andb orb]
  end.

(** The six low bits and the rest. *)
Lemma low_six_bits (c : N) :
  ∃ q r, (c = 64 * q + r ∧ r < 64 ∧ c / 64 = q ∧ c mod 64 = r)%N.
Proof.
  exists (c / 64)%N, (c mod 64)%N. split; [apply N.div_mod; lia |].
  split; [apply N.mod_lt; lia | done].
Qed.

Lemma utf8_scan_encode_char (c : N) (rest : list byte) :
  is_scalar_value c →
  utf8_scan (encode_char c ++ rest) = Char c :: utf8_scan rest.
Proof.
  unfold is_scalar_value, encode_char. intros Hc.
  destruct (low_six_bits c) as (q1 & r1 & Hc1 & Hr1 & Hq1 & Hm1).
  destruct (low_six_bits q1) as (q2 & r2 & Hc2 & Hr2 & Hq2 & Hm2).
  destruct (low_six_bits q2) as (q3 & r3 & Hc3 & Hr3 & Hq3 & Hm3).
  replace (c / 4096)%N with q2
    by (rewrite <- Hq2, <- Hq1; rewrite N.Div0.div_div; reflexivity).
  replace (c / 262144)%N with q3
    by (rewrite <- Hq3, <- Hq2, <- Hq1; rewrite !N.Div0.div_div; reflexivity).
  rewrite Hq1, Hm1, Hm2, Hm3.
  destruct (N.ltb_spec c 0x80); [| destruct (N.ltb_spec c 0x800);
    [| destruct (N.ltb_spec c 0x10000)]];
    cbn [app utf8_scan]; unfold is_continuation;
    rewrite ?to_N_byte_of by lia;
    decide_tests;
    f_equal; f_equal; rewrite ?N.shiftl_mul_pow2;
    change (2 ^ 6)%N with 64%N; change (2 ^ 12)%N with 4096%N;
    change (2 ^ 18)%N with 262144%N; lia.
Qed.

Lemma utf8_scan_encode (s : pystr) :
  Forall is_scalar_value s → utf8_scan (utf8_encode s) = Char <$> s.
Proof.
  induction 1 as [| c s Hc _ IH]; [done |].
  unfold utf8_encode. cbn [mbind list_bind].
  rewrite (utf8_scan_encode_char _ _ Hc). fold (utf8_encode s).
  by rewrite IH.
Qed.

(** X8. Decoding undoes encoding: the UTF-8 form of any text of Unicode
    scalar values decodes to that text, under every error policy and
    without a single replacement. *)
Theorem decode_of_encoded_text (errors : error_policy) (s : pystr) :
  Forall is_scalar_value s →
  decode errors (utf8_encode s) = Return s.
Proof.
  intros Hs. unfold decode. rewrite (utf8_scan_encode _ Hs).
  apply apply_policy_chars.
Qed.

End DecoderFacts.

(** * Properties of the tables *)

Section DisplayFacts.
Import Display.

Lemma rows_foldl_add_row {A} (cells : A → list pystr) (l : list A) (t : table) :
  rows (foldl (fun t x => add_row t (cells x)) t l) = rows t ++ (cells <$> l)
  ∧ columns (foldl (fun t x => add_row t (cells x)) t l) = columns t
  ∧ title (foldl (fun t x => add_row t (cells x)) t l) = title t.
Proof.
  revert t. induction l as [| x l IH]; intros t; cbn [foldl fmap list_fmap].
  - by rewrite app_nil_r.
  - destruct (IH (add_row t (cells x))) as (-> & -> & ->). cbn.
    by rewrite <- app_assoc.
Qed.

Lemma pipelines_table_rows (pipelines : list Pipeline) :
  rows (pipelines_table pipelines) =
    (fun p => [str_of_int (pl_id p); styled_status (pl_status p); pl_ref p;
               take 8 (pl_sha p); pl_created_at p]) <$> pipelines.
Proof.
  unfold pipelines_table.
  by destruct (rows_foldl_add_row
    (fun p => [str_of_int (pl_id p); styled_status (pl_status p); pl_ref p;
               take 8 (pl_sha p); pl_created_at p]) pipelines
    (add_column (add_column (add_column (add_column (add_column
       (Table (lit "GitLab Pipelines")) (lit "ID") (lit "right")
       (Some (lit "cyan"))) (lit "Status") (lit "left") None)
       (lit "Ref") (lit "left") None) (lit "SHA") (lit "left") None)
       (lit "Created At") (lit "left") None)) as (-> & _ & _).
Qed.

Lemma jobs_table_rows (jobs : list Job) :
  rows (jobs_table jobs) =
    (fun j => [jb_stage j; jb_name j; str_of_int (jb_id j);
               styled_status (jb_status j)]) <$> jobs.
Proof.
  unfold jobs_table.
  by destruct (rows_foldl_add_row
    (fun j => [jb_stage j; jb_name j; str_of_int (jb_id j);
               styled_status (jb_status j)]) jobs
    (add_column (add_column (add_column (add_column
       (Table (lit "Pipeline Jobs")) (lit "Stage") (lit "left") None)
       (lit "Job") (lit "left") None) (lit "ID") (lit "right")
       (Some (lit "cyan"))) (lit "Status") (lit "left") None))
    as (-> & _ & _).
Qed.

Lemma pipelines_table_columns (pipelines : list Pipeline) :
  length (columns (pipelines_table pipelines)) = 5%nat.
Proof.
  unfold pipelines_table.
  by destruct (rows_foldl_add_row
    (fun p => [str_of_int (pl_id p); styled_status (pl_status p); pl_ref p;
               take 8 (pl_sha p); pl_created_at p]) pipelines
    (add_column (add_column (add_column (add_column (add_column
       (Table (lit "GitLab Pipelines")) (lit "ID") (lit "right")
       (Some (lit "cyan"))) (lit "Status") (lit "left") None)
       (lit "Ref") (lit "left") None) (lit "SHA") (lit "left") None)
       (lit "Created At") (lit "left") None)) as (_ & -> & _).
Qed.

Lemma jobs_table_columns (jobs : list Job) :
  length (columns (jobs_table jobs)) = 4%nat.
Proof.
  unfold jobs_table.
  by destruct (rows_foldl_add_row
    (fun j => [jb_stage j; jb_name j; str_of_int (jb_id j);
               styled_status (jb_status j)]) jobs
    (add_column (add_column (add_column (add_column
       (Table (lit "Pipeline Jobs")) (lit "Stage") (lit "left") None)
       (lit "Job") (lit "left") None) (lit "ID") (lit "right")
       (Some (lit "cyan"))) (lit "Status") (lit "left") None))
    as (_ & -> & _).
Qed.

(** X9. The pipelines table has one row per pipeline, in the order given,
    and every row has as many cells as the table has columns. The row of a
    pipeline shows its id as a decimal numeral, its ref and its creation
    time as they are, and of its SHA the first eight characters: a prefix
    of the SHA, eight long unless the SHA itself is shorter. *)
Theorem pipelines_table_row_per_pipeline (pipelines : list Pipeline) :
  length (rows (pipelines_table pipelines)) = length pipelines
  ∧ Forall (fun row => length row = length (columns (pipelines_table pipelines)))
           (rows (pipelines_table pipelines))
  ∧ ∀ i p, pipelines !! i = Some p →
      ∃ status_cell sha_cell,
        rows (pipelines_table pipelines) !! i
          = Some [str_of_int (pl_id p); status_cell; pl_ref p; sha_cell;
                  pl_created_at p]
        ∧ sha_cell `prefix_of` pl_sha p
        ∧ length sha_cell = (8 `min` length (pl_sha p))%nat.
Proof.
  rewrite pipelines_table_columns, pipelines_table_rows. split; [| split].
  - by rewrite length_fmap.
  - apply Forall_fmap, Forall_forall. by intros p _.
  - intros i p Hp. eexists _, _. split; [| split].
    + rewrite list_lookup_fmap, Hp. reflexivity.
    + apply prefix_take.
    + apply length_take.
Qed.

(** X10. The jobs table has one row per job, in the order given, each
    with the four cells stage, name, id and styled status, as many as the
    table has columns. *)
Theorem jobs_table_row_per_job (jobs : list Job) :
  length (rows (jobs_table jobs)) = length jobs
  ∧ Forall (fun row => length row = length (columns (jobs_table jobs)))
           (rows (jobs_table jobs))
  ∧ ∀ i j, jobs !! i = Some j →
      rows (jobs_table jobs) !! i
        = Some [jb_stage j; jb_name j; str_of_int (jb_id j);
                styled_status (jb_status j)].
Proof.
  rewrite jobs_table_columns, jobs_table_rows. split; [| split].
  - by rewrite length_fmap.
  - apply Forall_fmap, Forall_forall. by intros j _.
  - intros i j Hj. by rewrite list_lookup_fmap, Hj.
Qed.

(** X11. Whatever the status string, known or not, the style chosen for
    it is one of eight colour names. *)
Theorem status_style_in_palette (status : pystr) :
  Presentation._get_status_style status ∈ palette.
Proof.
  destruct (decide (status ∈ Spec.known_statuses)) as [Hin | Hnot].
  - unfold Spec.known_statuses in Hin.
    repeat (apply elem_of_cons in Hin as [-> | Hin];
            [apply (bool_decide_unpack _); vm_compute; exact I |]).
    by apply elem_of_nil in Hin.
  - unfold Presentation._get_status_style.
    rewrite (status_styles_unknown _ Hnot).
    apply (bool_decide_unpack _). vm_compute. exact I.
Qed.

End DisplayFacts.

(** * Properties of the batch commands *)

Section CliFacts.
Import Shell.

Variable json_loads : pystr → Cli.json_outcome.
Variable remote : Remote.

Lemma tables_of_run {A} (m : M A) : tables_of (run m).2 = [].
Proof.
  unfold run. cbn. induction (m.2) as [| ev t IH]; [done |]. exact IH.
Qed.

Lemma effects_of_run {A} (m : M A) : effects_of (run m).2 = m.2.
Proof.
  unfold run. cbn. induction (m.2) as [| ev t IH]; [done |].
  cbn. by rewrite <- IH at 2.
Qed.

Lemma tables_of_effects (t : list event) : tables_of (Effect <$> t) = [].
Proof. induction t as [| ev t IH]; [done |]. exact IH. Qed.

Lemma effects_of_effects (t : list event) : effects_of (Effect <$> t) = t.
Proof. induction t as [| ev t IH]; [done |]. cbn. by f_equal. Qed.

Lemma tables_of_app (a b : list output) :
  tables_of (a ++ b) = tables_of a ++ tables_of b.
Proof. unfold tables_of. apply omap_app. Qed.

Lemma effects_of_app (a b : list output) :
  effects_of (a ++ b) = effects_of a ++ effects_of b.
Proof. unfold effects_of. apply omap_app. Qed.

Lemma console_of_app (a b : list event) :
  console_of (a ++ b) = console_of a ++ console_of b.
Proof. unfold console_of. apply omap_app. Qed.

Lemma requests_of_app (a b : list event) :
  requests_of (a ++ b) = requests_of a ++ requests_of b.
Proof. unfold requests_of. apply omap_app. Qed.

(** X12. [pipelines list] always prints exactly one table, with one row
    per pipeline the facade returned. When the service fails the table is
    still printed, without rows, after the facade's report; the command
    itself adds no message and sends no request of its own. *)
Theorem list_pipelines_always_one_table (limit : Z) :
  ∃ l,
    result_of (GitLabClient.get_pipelines remote limit) = Return l
    ∧ (Cli.list_pipelines remote limit).1 = Return ()
    ∧ tables_of (Cli.list_pipelines remote limit).2
      = [Display.pipelines_table l]
    ∧ length (Display.rows (Display.pipelines_table l)) = length l
    ∧ effects_of (Cli.list_pipelines remote limit).2
      = trace_of (GitLabClient.get_pipelines remote limit).
Proof.
  unfold Cli.list_pipelines. rewrite get_pipelines_eq.
  destruct (pipelines_list remote limit) as [l | e].
  - exists l. cbn. by rewrite pipelines_table_rows, length_fmap.
  - exists []. by cbn.
Qed.

Lemma get_latest_pipeline_eq :
  GitLabClient.get_latest_pipeline remote =
    match pipelines_list remote 1 with
    | Return l => (Return (head l), [RemoteCall (PipelinesList 1)])
    | Raise e =>
      (Return None,
       [RemoteCall (PipelinesList 1);
        ConsolePrint (lit "[bold red]Failed to get pipelines: " ++ exn_str e
                      ++ lit "[/bold red]")])
    end.
Proof.
  unfold GitLabClient.get_latest_pipeline. rewrite get_pipelines_eq.
  by destruct (pipelines_list remote 1) as [[| p l] | e].
Qed.

(** X13. [pipelines latest] and [pipelines status] print either one table
    with the single row of the pipeline the facade returned, and then no
    message of their own, or no table at all and, as their last line,
    "No pipelines found" or "Pipeline <id> not found". *)
Theorem pipeline_commands_table_or_message (pipeline_id : Z) :
  match result_of (GitLabClient.get_latest_pipeline remote) with
  | Return (Some p) =>
    tables_of (Cli.get_latest_pipeline remote).2 = [Display.pipelines_table [p]]
    ∧ console_of (effects_of (Cli.get_latest_pipeline remote).2) = []
  | _ =>
    tables_of (Cli.get_latest_pipeline remote).2 = []
    ∧ last (console_of (effects_of (Cli.get_latest_pipeline remote).2))
      = Some (lit "[bold red]No pipelines found[/bold red]")
  end
  ∧
  match result_of (GitLabClient.get_pipeline remote pipeline_id) with
  | Return (Some p) =>
    tables_of (Cli.get_pipeline_status remote pipeline_id).2
      = [Display.pipelines_table [p]]
    ∧ console_of (effects_of (Cli.get_pipeline_status remote pipeline_id).2) = []
  | _ =>
    tables_of (Cli.get_pipeline_status remote pipeline_id).2 = []
    ∧ last (console_of
              (effects_of (Cli.get_pipeline_status remote pipeline_id).2))
      = Some (lit "[bold red]Pipeline " ++ str_of_int pipeline_id
              ++ lit " not found[/bold red]")
  end.
Proof.
  split.
  - unfold Cli.get_latest_pipeline. rewrite get_latest_pipeline_eq.
    destruct (pipelines_list remote 1) as [[| p l] | e]; by cbn.
  - unfold Cli.get_pipeline_status. rewrite get_pipeline_eq.
    destruct (pipelines_get remote pipeline_id) as [p | e]; by cbn.
Qed.




End CliFacts.

(** * Properties of the log commands *)

Section DebugFacts.

Variable int_of_str : pystr → option Z.
Variable markup_error : pystr → option pystr.
Variable remote : Remote.


(** X20. The [jobs logs] command never raises and shows a log in one of
    two exclusive ways: in raw mode the three lines header, log, footer go
    to standard output and no panel is shown; in highlighted mode one
    panel titled "Logs for Job #<id>" holds the log and nothing goes to
    standard output. Without a log neither is produced and the last
    console line is "No logs found for job <id>". *)
Theorem logs_command_modes (job_id : Z) (raw : bool) :
  result_of (Helper.get_job_logs int_of_str markup_error remote job_id raw) = Return ()
  ∧ match result_of
            (GitLabClient.get_job_logs int_of_str markup_error remote (IdInt job_id)) with
    | Return (c :: logs) =>
      if raw then
        printed_of (trace_of (Helper.get_job_logs int_of_str markup_error remote job_id raw))
          = [Helper.logs_header job_id; c :: logs; Helper.logs_footer]
        ∧ Shell.panels_of
            (trace_of (Helper.get_job_logs int_of_str markup_error remote job_id raw)) = []
      else
        printed_of (trace_of (Helper.get_job_logs int_of_str markup_error remote job_id raw))
          = []
        ∧ Shell.panels_of
            (trace_of (Helper.get_job_logs int_of_str markup_error remote job_id raw))
          = [(lit "Logs for Job #" ++ str_of_int job_id, c :: logs)]
    | _ =>
      printed_of (trace_of (Helper.get_job_logs int_of_str markup_error remote job_id raw))
        = []
      ∧ Shell.panels_of
          (trace_of (Helper.get_job_logs int_of_str markup_error remote job_id raw)) = []
      ∧ last (console_of
                (trace_of (Helper.get_job_logs int_of_str markup_error remote job_id raw)))
        = Some (Helper.no_logs_message job_id)
    end.
Proof.
  unfold Helper.get_job_logs. rewrite get_job_logs_eq, py_int_IdInt.
  destruct (jobs_get remote job_id) as [job | e]; [| by destruct raw].
  destruct (job_trace remote job) as [[bs | s] | e]; [| | by destruct raw].
  - destruct (Spec.replace_malformed (Utf8.utf8_scan bs)) as [| c logs];
      by destruct raw.
  - destruct s as [| c logs]; by destruct raw.
Qed.

End DebugFacts.

(** * Properties of the start-up *)

Section StartupFacts.
Import Startup.

Variable gl : Type.
Variable path_exists : pystr → bool.
Variable load_yaml : pystr → outcome yaml.
Variable home_config : pystr.
Variable type_error_text : yaml → pystr.
Variable Gitlab : yaml → yaml → outcome gl.
Variable projects_get : gl → yaml → outcome Remote.

Local Abbreviation load_first := (Startup.load_first path_exists load_yaml).
Local Abbreviation _load_config :=
  (Startup._load_config path_exists load_yaml home_config).
Local Abbreviation loads := (Startup.loads path_exists load_yaml).
Local Abbreviation gives_nothing := (Startup.gives_nothing path_exists load_yaml).
Local Abbreviation subscript := (Startup.subscript type_error_text).
Local Abbreviation init :=
  (Startup.init gl path_exists load_yaml home_config type_error_text
     Gitlab projects_get).
Local Abbreviation connected :=
  (Startup.connected gl type_error_text Gitlab projects_get).

Lemma load_first_spec (paths : list (option pystr)) :
  match (load_first paths).1 with
  | Running config =>
    ∃ before path after,
      paths = before ++ path :: after
      ∧ Forall gives_nothing before
      ∧ loads path config
  | Exited status =>
    status = 1
    ∧ Forall gives_nothing paths
    ∧ last (console_of (load_first paths).2) = Some no_config_message
  end.
Proof.
  induction paths as [| path rest IH]; cbn [Startup.load_first].
  - by repeat split.
  - assert (Hskip : gives_nothing path →
      match (load_first rest).1 with
      | Running config =>
        ∃ before path' after,
          path :: rest = before ++ path' :: after
          ∧ Forall gives_nothing before ∧ loads path' config
      | Exited status =>
        status = 1 ∧ Forall gives_nothing (path :: rest)
        ∧ last (console_of (load_first rest).2) = Some no_config_message
      end).
    { intros Hnothing. destruct (load_first rest).1 as [config | status].
      - destruct IH as (before & path' & after & -> & Hbefore & Hloads).
        exists (path :: before), path', after.
        split; [done | split; [by constructor | done]].
      - destruct IH as (-> & Hall & Hlast).
        split; [done | split; [by constructor | done]]. }
    destruct path as [p |]; [| apply Hskip; by intros ? [=]].
    destruct (str_truthy p && path_exists p) eqn:Htry;
      [| apply Hskip; intros ? [= <-] Ht He; by rewrite Ht, He in Htry].
    apply andb_prop in Htry as [Ht He].
    destruct (load_yaml p) as [config | e] eqn:Hload.
    + cbn. exists [], (Some p), rest.
      split; [done | split; [constructor |]]. by exists p.
    + assert (Hnothing : gives_nothing (Some p)).
      { intros ? [= <-] _ _. by exists e. }
      specialize (Hskip Hnothing).
      destruct (load_first rest) as [[config | status] t];
        cbn [fst snd] in *; [exact Hskip |].
      destruct Hskip as (-> & Hall & Hlast).
      split; [done | split; [done |]].
      match goal with
      | |- last (console_of (ConsolePrint ?x :: t)) = _ =>
        change (last (x :: console_of t) = Some no_config_message)
      end.
      destruct (console_of t) as [| line lines]; [done |].
      exact Hlast.
Qed.



End StartupFacts.

(** * The further properties at work on the concrete service *)

Example demo_startup :
  (DemoStartup.init (Some (lit "broken.yaml"))).2
  = [ConsolePrint (lit "[bold red]Error loading config from broken.yaml: mapping values are not allowed here[/bold red]")]
  ∧ (DemoStartup.init (Some (lit "empty.yaml"))).1 = Startup.Exited 1
  ∧ (DemoStartup.init (Some (lit "partial.yaml"))).2
    = [ConsolePrint (lit "[bold red]Failed to get project: 'project_id'[/bold red]")].
Proof. repeat split; reflexivity. Qed.

Example demo_create_with_list_variables :
  Shell.effects_of
    (Cli.create_pipeline DemoStartup.json_loads Demo.remote (lit "main")
       (Some (lit "[1, 2]"))).2
  = [ConsolePrint (lit "[bold red]Failed to create pipeline: 'list' object has no attribute 'items'[/bold red]");
     ConsolePrint (lit "[bold red]Failed to create pipeline[/bold red]")].
Proof. reflexivity. Qed.

Lemma data_comes_without_report_witness :
  console_of (trace_of
    (GitLabClient.get_job_logs Demo.int_of_str Demo.markup_error Demo.remote (IdStr (lit "501"))))
  = []
  ∧ console_of (trace_of (GitLabClient.get_jobs Demo.remote 103)) = [].
Proof.
  destruct (data_comes_without_report Demo.int_of_str Demo.markup_error Demo.remote)
    as (_ & Hjobs & _ & Hlogs).
  split.
  - destruct (Hlogs (IdStr (lit "501"))) as [_ Hsilent].
    eapply Hsilent; [reflexivity | discriminate].
  - destruct (Hjobs 103) as [_ Hsilent].
    eapply Hsilent; [reflexivity | discriminate].
Defined.

Lemma numeric_text_id_is_the_integer_witness :
  GitLabClient.get_job_logs Demo.int_of_str Demo.markup_error Demo.remote (IdStr (lit " 501 "))
  = GitLabClient.get_job_logs Demo.int_of_str Demo.markup_error Demo.remote (IdInt 501).
Proof.
  exact (proj2 (numeric_text_id_is_the_integer Demo.int_of_str Demo.markup_error Demo.remote
                  (lit " 501 ") 501 eq_refl)).
Defined.

Lemma decoded_text_is_bounded_and_scalar_witness :
  (length [0x6F; 0x6B; 0xFFFD; 0x0A]%N ≤ length Demo.trace501)%nat
  ∧ Forall Unicode.is_scalar_value [0x6F; 0x6B; 0xFFFD; 0x0A]%N.
Proof.
  exact (decoded_text_is_bounded_and_scalar Utf8.Replace Demo.trace501
           [0x6F; 0x6B; 0xFFFD; 0x0A]%N eq_refl).
Defined.

Lemma ascii_decodes_to_itself_witness :
  Utf8.decode Utf8.Strict [x6f; x6b; x0a]%byte = Return [0x6F; 0x6B; 0x0A]%N.
Proof.
  apply (ascii_decodes_to_itself Utf8.Strict [x6f; x6b; x0a]%byte).
  repeat constructor.
Defined.

Lemma decode_of_encoded_text_witness :
  Utf8.decode Utf8.Strict (Unicode.utf8_encode [0x6F; 0xE9; 0x20AC; 0x1F600]%N)
  = Return [0x6F; 0xE9; 0x20AC; 0x1F600]%N.
Proof.
  apply (decode_of_encoded_text Utf8.Strict [0x6F; 0xE9; 0x20AC; 0x1F600]%N).
  repeat constructor; unfold Unicode.is_scalar_value; lia.
Defined.

Lemma pipelines_table_row_per_pipeline_witness :
  ∃ status_cell sha_cell,
    Display.rows (Display.pipelines_table Demo.all_pipelines) !! 0%nat
      = Some [lit "103"; status_cell; lit "main"; sha_cell;
              lit "2024-05-01T10:00:00.000Z"]
    ∧ sha_cell `prefix_of` pl_sha Demo.p103
    ∧ length sha_cell = 8%nat.
Proof.
  destruct (pipelines_table_row_per_pipeline Demo.all_pipelines)
    as (_ & _ & Hrow).
  destruct (Hrow 0%nat Demo.p103 eq_refl)
    as (status_cell & sha_cell & Hcells & Hprefix & Hlen).
  exists status_cell, sha_cell.
  split; [exact Hcells | split; [exact Hprefix | exact Hlen]].
Defined.

Lemma jobs_table_row_per_job_witness :
  Display.rows (Display.jobs_table [Demo.job501; Demo.job502]) !! 1%nat
  = Some [lit "test"; lit "unit"; lit "502"; lit "[red]failed[/red]"].
Proof.
  destruct (jobs_table_row_per_job [Demo.job501; Demo.job502]) as (_ & _ & Hrow).
  exact (Hrow 1%nat Demo.job502 eq_refl).
Defined.




Example demo_debug_script_on_markup_in_id :
  DebugScript.debug_job_logs Demo.int_of_str Demo.markup_error Demo.remote
    (IdStr (lit "[/x]")) true
  = (Raise (MarkupError
       (lit "closing tag '[/x]' at position 26 doesn't match any open tag")),
     [Print (lit "Fetching logs for job ID: [/x]")]).
Proof. reflexivity. Qed.

